(** * lsoph: the event-history table of a watched file

    A shallow embedding of [src/lsoph/ui/detail_screen.py]: the header of
    the detail screen ([DetailScreen._create_header_text]) and the routine
    that fills its table ([DetailScreen.on_mount]).

    The Python values an event can hold are an inductive type, the
    exceptions the interpreter raises are data, and the screen (table rows,
    log records, notifications) is a record threaded through a small
    state-and-exception monad.  What the module imports from elsewhere
    (the emoji tables, [short_path], the local time zone behind
    [datetime.fromtimestamp], the text of a float) is gathered in one
    record, [Env].  The theorems hold on every platform; the examples are
    evaluated on one, [example_env]. *)

From Stdlib Require Import Ascii String.
From Stdlib Require Import List ZArith NArith Bool Lia.
From Stdlib.Strings Require Import Byte.
From Stdlib Require Import DecimalString.
Import ListNotations.

Local Open Scope Z_scope.

(** ** Text and bytes *)

(** A Python [str] is a sequence of code points. *)
Definition pystr := list N.

(** A Python [bytes] object. *)
Definition pybytes := list byte.

(** A source literal, character by character. *)
Definition u (s : string) : pystr := map N_of_ascii (list_ascii_of_string s).

Definition pystr_eq_dec : forall a b : pystr, {a = b} + {a <> b} :=
  list_eq_dec N.eq_dec.

Definition pystr_eqb (a b : pystr) : bool :=
  if pystr_eq_dec a b then true else false.

(** [sep.join(parts)] *)
Fixpoint join (sep : pystr) (parts : list pystr) : pystr :=
  match parts with
  | [] => []
  | [p] => p
  | p :: rest => p ++ sep ++ join sep rest
  end.

(** [s[:-3]] *)
Definition drop_last3 (s : pystr) : pystr := firstn (length s - 3)%nat s.

(** The decimal digits of an integer, as [str(int)] writes them. *)
Definition decimal (z : Z) : pystr := u (NilZero.string_of_int (Z.to_int z)).

(** One decimal digit. *)
Definition digit (d : Z) : N := (48 + Z.to_N (d mod 10))%N.

(** A number in a field of [w] digits, zero padded, as [strftime] writes
    [%H], [%M], [%S] (two digits) and [%f] (six). *)
Fixpoint zpad (w : nat) (n : Z) : pystr :=
  match w with
  | O => []
  | S w' => zpad w' (n / 10) ++ [digit n]
  end.

Definition hexdigit (d : N) : N :=
  (if d <? 10 then 48 + d else 87 + d)%N.

(** [w] lower-case hexadecimal digits of [n]. *)
Fixpoint hexpad (w : nat) (n : N) : pystr :=
  match w with
  | O => []
  | S w' => hexpad w' (n / 16)%N ++ [hexdigit (n mod 16)%N]
  end.

Definition byte_of (n : N) : byte :=
  match Byte.of_N n with Some b => b | None => x00 end.

(** ** Exceptions *)

Inductive exn_class :=
| TypeError
| ValueError
| OSError
| OverflowError
| AttributeError
| UnicodeEncodeError.

Definition exn_class_eqb (a b : exn_class) : bool :=
  match a, b with
  | TypeError, TypeError | ValueError, ValueError | OSError, OSError
  | OverflowError, OverflowError | AttributeError, AttributeError
  | UnicodeEncodeError, UnicodeEncodeError => true
  | _, _ => false
  end.

(** [issubclass(c, base)] among the classes above: [UnicodeEncodeError]
    derives from [ValueError]. *)
Definition issubclass (c base : exn_class) : bool :=
  exn_class_eqb c base ||
  match c, base with
  | UnicodeEncodeError, ValueError => true
  | _, _ => false
  end.

(** ** Values *)

(** A binary64 float: not-a-number, an infinity, or [(-1)^neg * m * 2^e]. *)
Inductive pyfloat :=
| Fnan
| Finf (neg : bool)
| Ffin (neg : bool) (m : N) (e : Z).

(** The values an event record can hold.  A [dict] keeps its items in
    insertion order. *)
#[warning="-register-all"]
Inductive value :=
| VNone
| VBool (b : bool)
| VInt (z : Z)
| VFloat (f : pyfloat)
| VStr (s : pystr)
| VBytes (b : pybytes)
| VDict (items : list (pystr * value)).

Definition pydict := list (pystr * value).

(** A number handed to [datetime.fromtimestamp]. *)
Inductive pynum :=
| NumInt (z : Z)
| NumFloat (f : pyfloat).

(** Where an exception was raised, with what it was raised about: all that
    its message depends on. *)
Inductive origin :=
| NoAttribute (v : value) (attr : pystr)
| FormatSpec (v : value)
| IntTooLarge (z : Z)
| FromTimestamp (n : pynum)
| FsdecodeArguments
| Fspath (v : value)
| TextInit (v : value)
| Encode (s : pystr).

Record exn := mkExn { exn_type : exn_class; exn_origin : origin }.

(** The outcome of an expression: an exception or a value. *)
Definition result (A : Type) := (exn + A)%type.

Definition raise {A} (c : exn_class) (o : origin) : result A := inl (mkExn c o).
Definition ok {A} (a : A) : result A := inr a.

Definition bind {A B} (r : result A) (k : A -> result B) : result B :=
  match r with
  | inl e => inl e
  | inr a => k a
  end.

(** ** Built-in operations *)

(** [bool(v)] *)
Definition truthy (v : value) : bool :=
  match v with
  | VNone => false
  | VBool b => b
  | VInt z => negb (z =? 0)
  | VFloat (Ffin _ m _) => negb (m =? 0)%N
  | VFloat _ => true
  | VStr s => match s with [] => false | _ => true end
  | VBytes b => match b with [] => false | _ => true end
  | VDict d => match d with [] => false | _ => true end
  end.

(** [isinstance(v, (int, float))]: [bool] is a subclass of [int]. *)
Definition is_int_or_float (v : value) : bool :=
  match v with
  | VBool _ | VInt _ | VFloat _ => true
  | _ => false
  end.

(** [isinstance(v, bytes)] *)
Definition is_bytes (v : value) : bool :=
  match v with
  | VBytes _ => true
  | _ => false
  end.

(** [x > 0] for a float. *)
Definition float_positive (f : pyfloat) : bool :=
  match f with
  | Fnan => false
  | Finf neg => negb neg
  | Ffin neg m _ => negb neg && (0 <? m)%N
  end.

(** [v > 0] for a value that passed [isinstance(v, (int, float))]. *)
Definition greater_than_zero (v : value) : bool :=
  match v with
  | VBool b => b
  | VInt z => 0 <? z
  | VFloat f => float_positive f
  | _ => false
  end.

(** The number a value that passed [isinstance(v, (int, float))] stands
    for. *)
Definition number_of (v : value) : pynum :=
  match v with
  | VBool b => NumInt (if b then 1 else 0)
  | VInt z => NumInt z
  | VFloat f => NumFloat f
  | _ => NumInt 0
  end.

(** [d.get(k)] on the items of a [dict]: the value stored under [k]. *)
Fixpoint lookup {V} (k : pystr) (d : list (pystr * V)) : option V :=
  match d with
  | [] => None
  | (k', v) :: rest => if pystr_eq_dec k k' then Some v else lookup k rest
  end.

(** [d[k] = v] on the items of a [dict]: a key already present keeps its
    place, a new one goes last. *)
Fixpoint store {V} (k : pystr) (v : V) (d : list (pystr * V)) : list (pystr * V) :=
  match d with
  | [] => [(k, v)]
  | (k', v') :: rest =>
      if pystr_eq_dec k k' then (k', v) :: rest else (k', v') :: store k v rest
  end.

(** [d.get(k, default)] on the items of a [dict]. *)
Definition dict_get (d : pydict) (k : pystr) (default : value) : value :=
  match lookup k d with
  | Some v => v
  | None => default
  end.

(** [obj.get(k, default)]: only a [dict] has the method. *)
Definition get (obj : value) (k : pystr) (default : value) : result value :=
  match obj with
  | VDict d => ok (dict_get d k default)
  | _ => raise AttributeError (NoAttribute obj (u "get"))
  end.

(** [obj.items()] *)
Definition items (obj : value) : result pydict :=
  match obj with
  | VDict d => ok d
  | _ => raise AttributeError (NoAttribute obj (u "items"))
  end.

(** [float(z)]: the nearest binary64 value, ties to even.  From 53 bits on
    an integer is cut to its 53 leading bits; the values the type holds at
    that size are integers, so the result is given as one. *)
Definition round_to_double (z : Z) : Z :=
  let a := Z.abs z in
  let n := Z.log2 a + 1 in
  if n <=? 53 then z
  else
    let sh := n - 53 in
    let q := Z.shiftr a sh in
    let r := Z.land a (Z.ones sh) in
    let half := Z.shiftl 1 (sh - 1) in
    let q' := if (half <? r) || ((r =? half) && Z.odd q) then q + 1 else q in
    Z.sgn z * Z.shiftl q' sh.

Definition int_to_float (z : Z) : result Z :=
  let d := round_to_double z in
  if 2 ^ 1024 <=? Z.abs d then raise OverflowError (IntTooLarge z) else ok d.

(** [os.fsdecode] is declared [def fsdecode(filename)]: the interpreter
    binds the positional arguments of a call to the parameters before it
    runs the body, and a call with more arguments than parameters raises
    [TypeError]. *)
Definition fsdecode (decode : pybytes -> pystr) (args : list value) : result value :=
  match args with
  | [filename] =>
      match filename with
      | VBytes b => ok (VStr (decode b))
      | VStr s => ok (VStr s)
      | _ => raise TypeError (Fspath filename)
      end
  | _ => raise TypeError FsdecodeArguments
  end.

(** [s.encode("utf-8", "surrogateescape")]: the UTF-8 bytes of each code
    point; a surrogate U+DC80..U+DCFF gives back the byte it escapes, any
    other surrogate cannot be encoded. *)
Definition encode_code_point (c : N) : option pybytes :=
  (if c <? 128 then Some [byte_of c]
   else if c <? 2048 then Some [byte_of (192 + c / 64); byte_of (128 + c mod 64)]
   else if (55296 <=? c) && (c <=? 57343) then
     if (56448 <=? c) && (c <=? 56575) then Some [byte_of (c - 56320)] else None
   else if c <? 65536 then
     Some [byte_of (224 + c / 4096); byte_of (128 + (c / 64) mod 64);
           byte_of (128 + c mod 64)]
   else if c <? 1114112 then
     Some [byte_of (240 + c / 262144); byte_of (128 + (c / 4096) mod 64);
           byte_of (128 + (c / 64) mod 64); byte_of (128 + c mod 64)]
   else None)%N.

Fixpoint encode_code_points (s : pystr) : option pybytes :=
  match s with
  | [] => Some []
  | c :: rest =>
      match encode_code_point c, encode_code_points rest with
      | Some b, Some bs => Some (b ++ bs)
      | _, _ => None
      end
  end.

Definition encode_utf8_surrogateescape (s : pystr) : result pybytes :=
  match encode_code_points s with
  | Some b => ok b
  | None => raise UnicodeEncodeError (Encode s)
  end.

(** ** rich.text.Text *)

(** [rich.control.strip_control_codes]: bell, backspace, vertical tab, form
    feed and carriage return are removed. *)
Definition STRIP_CONTROL_CODES : list N := [7; 8; 11; 12; 13]%N.

Definition strip_control_codes (s : pystr) : pystr :=
  filter (fun c => negb (existsb (N.eqb c) STRIP_CONTROL_CODES)) s.

Record Text := mkText { plain : pystr; style : pystr }.

(** [Text(text, style=style)]: the constructor strips the control codes of
    a [str]; any other value has no usable [translate] method. *)
Definition Text_init (v : value) (style : pystr) : result Text :=
  match v with
  | VStr s => ok (mkText (strip_control_codes s) style)
  | VBytes _ => raise TypeError (TextInit v)
  | _ => raise AttributeError (TextInit v)
  end.

(** [Text(s, style=style)] for a [str]. *)
Definition Text_of (s : pystr) (style : pystr) : Text :=
  mkText (strip_control_codes s) style.

(** ** datetime *)

Definition in_range (lo n hi : Z) : bool := (lo <=? n) && (n <? hi).

(** The time of day of a [datetime]; the class keeps every field in
    range. *)
Record datetime := mkDatetime {
  hour : Z;
  minute : Z;
  second : Z;
  microsecond : Z;
  datetime_fields :
    in_range 0 hour 24 && in_range 0 minute 60 && in_range 0 second 60
    && in_range 0 microsecond 1000000 = true
}.

(** [dt.strftime("%H:%M:%S.%f")] *)
Definition strftime_HMSf (dt : datetime) : pystr :=
  zpad 2 (hour dt) ++ u ":" ++ zpad 2 (minute dt) ++ u ":"
  ++ zpad 2 (second dt) ++ u "." ++ zpad 6 (microsecond dt).

(** The nearest integer to [n / d], ties to even. *)
Definition round_half_even (n d : Z) : Z :=
  let q := n / d in
  let r := n mod d in
  if (d <? 2 * r) || ((2 * r =? d) && Z.odd q) then q + 1 else q.

(** [scale * |f|] to the nearest integer, for a finite float. *)
Definition scaled (scale : Z) (m : N) (e : Z) : Z :=
  if 0 <=? e then scale * Z.of_N m * 2 ^ e
  else round_half_even (scale * Z.of_N m) (2 ^ (- e)).

(** [f"{f:.3f}"] for a float: the digits of its exact value, rounded to
    the nearest thousandth, ties to even; the sign is that of the float,
    also before [0.000]. *)
Definition float_3f (f : pyfloat) : pystr :=
  match f with
  | Fnan => u "nan"
  | Finf neg => (if neg then u "-" else []) ++ u "inf"
  | Ffin neg m e =>
      let n := scaled 1000 m e in
      (if neg then u "-" else []) ++ decimal (n / 1000) ++ u "." ++ zpad 3 (n mod 1000)
  end.

(** The whole seconds and the microseconds [datetime.fromtimestamp] takes
    from its argument (the interpreter's [_PyTime_ObjectToTimeval] with
    [ROUND_HALF_EVEN]).  An [int] counts whole seconds.  A float is split
    by [modf] into its whole part and its fraction; the fraction is
    multiplied by [1e6], a float product that keeps 53 bits, and the
    product is rounded to the nearest integer, ties to even; a fraction
    that rounds to a full second is carried into the seconds, and a
    negative fraction is counted up from the second below.  A
    not-a-number and an infinity have neither. *)
Definition timeval_of (n : pynum) : option (Z * Z) :=
  match n with
  | NumInt z => Some (z, 0)
  | NumFloat (Ffin neg m e) =>
      if 0 <=? e then Some ((if neg then -1 else 1) * (Z.of_N m * 2 ^ e), 0)
      else
        let d := 2 ^ (- e) in
        let intpart := Z.of_N m / d in
        let floatpart :=
          round_half_even (round_to_double (1000000 * (Z.of_N m mod d))) d in
        if neg then
          if floatpart =? 0 then Some (- intpart, 0)
          else Some (- intpart - 1, 1000000 - floatpart)
        else if 1000000 <=? floatpart then Some (intpart + 1, floatpart - 1000000)
        else Some (intpart, floatpart)
  | NumFloat _ => None
  end.

(** ** What the module imports *)

(** The names [detail_screen.py] takes from outside its own text: the emoji
    tables of [lsoph.ui.emoji], [short_path] of [lsoph.util.short_path],
    and the parts of the interpreter that depend on the platform or are
    too long to write out (the file system encoding, the local time zone,
    the Unicode tables, the shortest text of a float, the text of an
    exception). *)
Class Env := {
  DEFAULT_EMOJI : pystr;
  EVENT_EMOJI_MAP : list (pystr * pystr);
  short_path : pybytes -> Z -> pystr;
  fs_decode : pybytes -> pystr;
  isprintable : N -> bool;
  toupper : N -> pystr;
  float_repr : pyfloat -> pystr;
  float_format_3f : pyfloat -> pystr;
  fromtimestamp : pynum -> exn_class + datetime;
  exn_str : exn -> pystr;
  (** A [datetime] has a year from 1 to 9999: the whole seconds that have a
      local time are far fewer than 2^53 away from the epoch. *)
  fromtimestamp_int_range :
    forall z dt, fromtimestamp (NumInt z) = inr dt -> Z.abs z < 2 ^ 53;
  (** The three decimals of a float are those of its value on every
      platform. *)
  float_format_3f_rounds : forall f, float_format_3f f = float_3f f;
  (** The time zone moves a time by whole seconds: the [datetime] of a
      timestamp has the microseconds of [timeval_of] and the hour, minute
      and second of the local time of its whole seconds. *)
  fromtimestamp_timeval :
    forall n dt,
      fromtimestamp n = inr dt ->
      exists seconds us whole,
        timeval_of n = Some (seconds, us)
        /\ microsecond dt = us
        /\ fromtimestamp (NumInt seconds) = inr whole
        /\ hour whole = hour dt /\ minute whole = minute dt /\ second whole = second dt
}.

Section Builtins.
Context {E : Env}.

(** [s.upper()]: ASCII letters by the table, other code points by the
    Unicode case mapping. *)
Definition upper (s : pystr) : pystr :=
  flat_map (fun c =>
    if (97 <=? c)%N && (c <=? 122)%N then [(c - 32)%N]
    else if (c <? 128)%N then [c]
    else toupper c) s.

(** The quote [repr] puts around a text: a single quote, unless the text
    has single quotes and no double quote. *)
Definition repr_quote (s : pystr) : N :=
  if existsb (N.eqb 39) s && negb (existsb (N.eqb 34) s) then 34%N else 39%N.

Definition escape_char (quote c : N) : pystr :=
  (if (c =? quote) || (c =? 92) then [92; c]
   else if c =? 9 then u "\t"
   else if c =? 10 then u "\n"
   else if c =? 13 then u "\r"
   else if (c <? 32) || (c =? 127) then u "\x" ++ hexpad 2 c
   else if c <? 127 then [c]
   else if isprintable c then [c]
   else if c <? 256 then u "\x" ++ hexpad 2 c
   else if c <? 65536 then u "\u" ++ hexpad 4 c
   else u "\U" ++ hexpad 8 c)%N.

(** [repr(s)] for a [str]. *)
Definition repr_str (s : pystr) : pystr :=
  let q := repr_quote s in
  [q] ++ flat_map (escape_char q) s ++ [q].

Definition escape_byte (quote c : N) : pystr :=
  (if (c =? quote) || (c =? 92) then [92; c]
   else if c =? 9 then u "\t"
   else if c =? 10 then u "\n"
   else if c =? 13 then u "\r"
   else if (c <? 32) || (127 <=? c) then u "\x" ++ hexpad 2 c
   else [c])%N.

(** [repr(b)] for a [bytes]. *)
Definition repr_bytes (b : pybytes) : pystr :=
  let s := map Byte.to_N b in
  let q := repr_quote s in
  u "b" ++ [q] ++ flat_map (escape_byte q) s ++ [q].

(** [repr(v)] *)
Fixpoint repr (v : value) : pystr :=
  match v with
  | VNone => u "None"
  | VBool true => u "True"
  | VBool false => u "False"
  | VInt z => decimal z
  | VFloat f => float_repr f
  | VStr s => repr_str s
  | VBytes b => repr_bytes b
  | VDict d =>
      u "{" ++ join (u ", ")
                 (map (fun kv => repr_str (fst kv) ++ u ": " ++ repr (snd kv)) d)
      ++ u "}"
  end.

(** [str(v)] *)
Definition str (v : value) : pystr :=
  match v with
  | VStr s => s
  | _ => repr v
  end.

(** [f"{v:.3f}"]: a float is written with three decimals, an [int] (or a
    [bool]) is converted to a float first, and no other type of value
    takes the format. *)
Definition format_3f (v : value) : result pystr :=
  match v with
  | VFloat f => ok (float_format_3f f)
  | VInt z => bind (int_to_float z) (fun d => ok (decimal d ++ u ".000"))
  | VBool b => ok (decimal (if b then 1 else 0) ++ u ".000")
  | VStr _ => raise ValueError (FormatSpec v)
  | _ => raise TypeError (FormatSpec v)
  end.

(** [EVENT_EMOJI_MAP.get(name, DEFAULT_EMOJI)] *)
Definition emoji_for (name : pystr) : pystr :=
  match lookup name EVENT_EMOJI_MAP with
  | Some e => e
  | None => DEFAULT_EMOJI
  end.

End Builtins.

(** ** The screen *)

(** [lsoph.monitor.FileInfo], as far as the screen reads it. *)
Record FileInfo := mkFileInfo {
  path : pybytes;
  status : pystr;
  is_open : bool;
  event_history : list value
}.

Inductive log_level := DEBUG | WARNING | ERROR.

(** What a log record says; the texts are those of the f-strings. *)
Inductive log_message :=
| Populating (n_events : nat) (file : value)
| CouldNotFormatTimestamp (ts_raw : pystr) (ts_err : pystr)
| ErrorPopulating (file : value).

Record log_record := mkLog { level : log_level; message : log_message }.

Record column := mkColumn { label : pystr; key : pystr; width : option Z }.

Record notification := mkNotification { note : pystr; severity : pystr }.

(** The widgets [on_mount] acts on, the records of the module's logger and
    the notifications posted to the application. *)
Record screen := mkScreen {
  header : list Text;
  columns : list column;
  rows : list (list Text);
  focused : bool;
  log : list log_record;
  notifications : list notification
}.

(** The screen as [compose] leaves it. *)
Definition composed (head : list Text) : screen :=
  mkScreen head [] [] false [] [].

(** A statement: it changes the screen and ends normally or by raising. *)
Definition M (A : Type) := screen -> screen * result A.

Definition ret {A} (a : A) : M A := fun s => (s, ok a).

Definition throw {A} (e : exn) : M A := fun s => (s, inl e).

Definition mbind {A B} (m : M A) (k : A -> M B) : M B :=
  fun s =>
    match m s with
    | (s', inr a) => k a s'
    | (s', inl e) => (s', inl e)
    end.

(** An expression that touches nothing on the screen. *)
Definition lift {A} (r : result A) : M A := fun s => (s, r).

(** [try: body except Exception as e: handler(e)] *)
Definition try_except {A} (body : M A) (handler : exn -> M A) : M A :=
  fun s =>
    match body s with
    | (s', inr a) => (s', ok a)
    | (s', inl e) => handler e s'
    end.

Declare Scope py_scope.
Delimit Scope py_scope with py.
Notation "x <- m ;; k" := (mbind m (fun x => k))
  (at level 61, m at next level, right associativity) : py_scope.
Notation "m ;; k" := (mbind m (fun _ => k))
  (at level 61, right associativity) : py_scope.
Local Open Scope py_scope.

(** [for x in xs: body(x)] *)
Fixpoint for_each {A} (body : A -> M unit) (xs : list A) : M unit :=
  match xs with
  | [] => ret tt
  | x :: rest => body x ;; for_each body rest
  end.

Definition update_header (h : list Text) : M unit :=
  fun s => (mkScreen h (columns s) (rows s) (focused s) (log s) (notifications s), ok tt).

Definition add_column (l k : string) (w : option Z) : M unit :=
  fun s => (mkScreen (header s) (columns s ++ [mkColumn (u l) (u k) w]) (rows s)
              (focused s) (log s) (notifications s), ok tt).

Definition add_row (cells : list Text) : M unit :=
  fun s => (mkScreen (header s) (columns s) (rows s ++ [cells]) (focused s)
              (log s) (notifications s), ok tt).

(** [table.clear()]: the rows go, the columns stay. *)
Definition clear : M unit :=
  fun s => (mkScreen (header s) (columns s) [] (focused s) (log s) (notifications s),
            ok tt).

Definition focus : M unit :=
  fun s => (mkScreen (header s) (columns s) (rows s) true (log s) (notifications s),
            ok tt).

Definition emit (l : log_level) (m : log_message) : M unit :=
  fun s => (mkScreen (header s) (columns s) (rows s) (focused s)
              (log s ++ [mkLog l m]) (notifications s), ok tt).

Definition notify (msg sev : string) : M unit :=
  fun s => (mkScreen (header s) (columns s) (rows s) (focused s) (log s)
              (notifications s ++ [mkNotification (u msg) (u sev)]), ok tt).

(** ** detail_screen.py *)

Section DetailScreen.
Context {E : Env}.

(** A value of [filtered_details]: one taken from the event, or the [Text]
    made for the [ERROR] entry. *)
Inductive detail :=
| Plain (v : value)
| Rich (t : Text).

Definition details := list (pystr * detail).

(** [DetailScreen._create_header_text] *)
Definition _create_header_text (fi : FileInfo) : list Text :=
  let path_display_str := short_path (path fi) 100 in
  let status_word := upper (status fi) in
  let style :=
    if pystr_eqb (status fi) (u "error") then u "bold red"
    else if is_open fi then u "bold green"
    else if pystr_eqb (status fi) (u "deleted") then u "strike"
    else [] in
  [Text_of (u "Details for: ") []; Text_of path_display_str (u "bold");
   Text_of (u " | Status: ") []; Text_of status_word style].

(** Lines 95-104: the timestamp.  The three-decimal text is made first,
    outside the [try]; the clock text replaces it for a positive number. *)
Definition except_timestamp (c : exn_class) : bool :=
  issubclass c TypeError || issubclass c ValueError || issubclass c OSError.

Definition timestamp (ts_raw : value) : M pystr :=
  ts_str <- lift (format_3f ts_raw) ;;
  if is_int_or_float ts_raw && greater_than_zero ts_raw then
    match fromtimestamp (number_of ts_raw) with
    | inr dt => ret (drop_last3 (strftime_HMSf dt))
    | inl c =>
        let ts_err := mkExn c (FromTimestamp (number_of ts_raw)) in
        if except_timestamp c then
          emit WARNING (CouldNotFormatTimestamp (str ts_raw) (exn_str ts_err)) ;;
          ret ts_str
        else throw ts_err
    end
  else ret ts_str.

(** Lines 107-118: the event column. *)
Definition etype_text (event_type_str : pystr) (success : value) : Text :=
  let emoji :=
    if negb (truthy success) then emoji_for (u "ERROR")
    else emoji_for event_type_str in
  Text_of (emoji ++ u " " ++ event_type_str) [].

(** Lines 121-123: the result column. *)
Definition result_text (success : value) : Text :=
  if truthy success then Text_of (u "OK") (u "green")
  else Text_of (u "FAIL") (u "red").

(** The keys the first loop leaves out (lines 130-141). *)
Definition EXCLUDED_KEYS : list pystr :=
  [u "syscall"; u "type"; u "success"; u "ts"; u "error_msg";
   u "target_path"; u "source_path"; u "renamed_to"; u "renamed_from"].

(** The keys of the second loop (lines 149-154). *)
Definition PATH_KEYS : list pystr :=
  [u "target_path"; u "source_path"; u "renamed_to"; u "renamed_from"].

(** The call [os.fsdecode(v, "surrogateescape")] of lines 144 and 159. *)
Definition fsdecode_surrogateescape (v : value) : result value :=
  fsdecode fs_decode [v; VStr (u "surrogateescape")].

(** Lines 129-146: the loop over [details_dict.items()]. *)
Fixpoint filter_details (its : pydict) (filtered_details : details) : result details :=
  match its with
  | [] => ok filtered_details
  | (k, v) :: rest =>
      if in_dec pystr_eq_dec k EXCLUDED_KEYS then filter_details rest filtered_details
      else if is_bytes v then
        bind (fsdecode_surrogateescape v) (fun s =>
          filter_details rest (store k (Plain s) filtered_details))
      else filter_details rest (store k (Plain v) filtered_details)
  end.

(** Lines 149-161: the loop over the four path keys. *)
Fixpoint path_details (details_dict : pydict) (keys : list pystr)
    (filtered_details : details) : result details :=
  match keys with
  | [] => ok filtered_details
  | path_key :: rest =>
      match lookup path_key details_dict with
      | Some v =>
          if is_bytes v then
            bind (fsdecode_surrogateescape v) (fun s =>
              path_details details_dict rest (store path_key (Plain s) filtered_details))
          else path_details details_dict rest filtered_details
      | None => path_details details_dict rest filtered_details
      end
  end.

(** Lines 163-165: the [ERROR] entry. *)
Definition error_detail (details_dict : pydict) (success : value)
    (filtered_details : details) : result details :=
  let error_name := dict_get details_dict (u "error_name") VNone in
  if truthy error_name && negb (truthy success) then
    bind (Text_init error_name (u "red")) (fun t =>
      ok (store (u "ERROR") (Rich t) filtered_details))
  else ok filtered_details.

(** Lines 126-165: [filtered_details] as the three steps leave it. *)
Definition filtered_details_of (details_value success : value) : result details :=
  bind (items details_value) (fun details_dict =>
  bind (filter_details details_dict []) (fun fd =>
  bind (path_details details_dict PATH_KEYS fd) (fun fd =>
  error_detail details_dict success fd))).

(** Lines 168-173: one [key=value] part. *)
Definition details_part (kv : pystr * detail) : pystr :=
  match snd kv with
  | Rich t => fst kv ++ u "=" ++ repr_str (plain t)
  | Plain v => fst kv ++ u "=" ++ repr v
  end.

(** Lines 167-175: [details_str]. *)
Definition details_str_of (filtered_details : details) : pystr :=
  join (u ", ") (map details_part filtered_details).

(** Lines 177-180: [details_display], the text shown. *)
Definition details_display_of (details_str : pystr) : result pystr :=
  bind (encode_utf8_surrogateescape details_str) (fun b => ok (short_path b 100)).

(** Lines 95-183, the body of the loop up to [add_row]: the four cells of
    one event. *)
Definition event_cells (event : value) : M (list Text) :=
  ts_raw <- lift (get event (u "ts") (VInt 0)) ;;
  ts_str <- timestamp ts_raw ;;
  let ts_text := Text_of ts_str [] in
  ty <- lift (get event (u "type") (VStr (u "?"))) ;;
  let event_type_str := upper (str ty) in
  success <- lift (get event (u "success") (VBool true)) ;;
  details_value <- lift (get event (u "details") (VDict [])) ;;
  filtered_details <- lift (filtered_details_of details_value success) ;;
  let details_str := details_str_of filtered_details in
  details_display <- lift (details_display_of details_str) ;;
  let details_text := Text_of details_display [] in
  ret [ts_text; etype_text event_type_str success; result_text success; details_text].

Definition add_event_row (event : value) : M unit :=
  cells <- event_cells event ;;
  add_row cells.

Definition NO_HISTORY : pystr := u "No event history recorded for this file.".

(** Lines 68-186: the body of the [try]. *)
Definition on_mount_try (fi : FileInfo) : M unit :=
  update_header (_create_header_text fi) ;;
  add_column "Timestamp" "ts" (Some 12) ;;
  add_column "Event" "event" (Some 12) ;;
  add_column "Result" "result" (Some 6) ;;
  add_column "Details" "details" None ;;
  let history := event_history fi in
  file <- lift (fsdecode fs_decode [VBytes (path fi)]) ;;
  emit DEBUG (Populating (length history) file) ;;
  match history with
  | [] => add_row [Text_of NO_HISTORY (u "dim")]
  | _ => for_each add_event_row history ;; focus
  end.

(** Lines 188-198: the handler. *)
Definition on_mount_except (fi : FileInfo) (e : exn) : M unit :=
  file <- lift (fsdecode fs_decode [VBytes (path fi)]) ;;
  emit ERROR (ErrorPopulating file) ;;
  try_except
    (clear ;;
     add_row [Text_of (u "Error loading details: " ++ exn_str e) (u "bold red")])
    (fun _ => ret tt) ;;
  notify "Error loading details." "error".

(** [DetailScreen.on_mount] *)
Definition on_mount (fi : FileInfo) : M unit :=
  try_except (on_mount_try fi) (on_mount_except fi).

(** The screen after [compose] and [on_mount]. *)
Definition mounted (fi : FileInfo) : screen :=
  fst (on_mount fi (composed (_create_header_text fi))).

End DetailScreen.

(** ** An example platform *)

(** Modelled from the spec: [lsoph.util.short_path.short_path] is not among
    the sources.  Section 4.1 has it decode the bytes of a path as UTF-8,
    an invalid byte becoming the escape U+DC00 + byte; section 4.2 has it
    return a text within the budget unchanged and otherwise keep a prefix
    of at most 40% of the budget left beside a one-character ellipsis,
    rounded down, and a suffix for the rest. *)
Definition ELLIPSIS : N := 8230%N.

Definition shorten (text : pystr) (max_width : Z) : pystr :=
  if Z.of_nat (length text) <=? max_width then text
  else if max_width <? 2 then firstn (Z.to_nat max_width) [ELLIPSIS]
  else
    let budget := max_width - 1 in
    let prefix := budget * 2 / 5 in
    let suffix := budget - prefix in
    firstn (Z.to_nat prefix) text ++ [ELLIPSIS]
    ++ skipn (length text - Z.to_nat suffix) text.

Definition continuation (b : N) : bool := ((128 <=? b) && (b <=? 191))%N.

Definition low6 (b : N) : N := (b mod 64)%N.

(** Is [b0 b1] the start of a three-byte (resp. four-byte) sequence that
    is neither overlong nor a surrogate nor beyond U+10FFFF? *)
Definition lead3 (b0 b1 : N) : bool :=
  ((b0 =? 224) && (160 <=? b1) && (b1 <=? 191)
   || (225 <=? b0) && (b0 <=? 236) && continuation b1
   || (b0 =? 237) && (128 <=? b1) && (b1 <=? 159)
   || (238 <=? b0) && (b0 <=? 239) && continuation b1)%N.

Definition lead4 (b0 b1 : N) : bool :=
  ((b0 =? 240) && (144 <=? b1) && (b1 <=? 191)
   || (241 <=? b0) && (b0 <=? 243) && continuation b1
   || (b0 =? 244) && (128 <=? b1) && (b1 <=? 143))%N.

Fixpoint decode_utf8_surrogateescape (b : list N) : pystr :=
  match b with
  | [] => []
  | b0 :: r0 =>
      let escaped := ((if b0 <? 128 then b0 else 56320 + b0) :: decode_utf8_surrogateescape r0)%N in
      match r0 with
      | b1 :: r1 =>
          if ((194 <=? b0) && (b0 <=? 223))%N && continuation b1 then
            ((b0 mod 32) * 64 + low6 b1)%N :: decode_utf8_surrogateescape r1
          else
            match r1 with
            | b2 :: r2 =>
                if lead3 b0 b1 && continuation b2 then
                  ((b0 mod 16) * 4096 + low6 b1 * 64 + low6 b2)%N
                  :: decode_utf8_surrogateescape r2
                else
                  match r2 with
                  | b3 :: r3 =>
                      if lead4 b0 b1 && continuation b2 && continuation b3 then
                        ((b0 mod 8) * 262144 + low6 b1 * 4096 + low6 b2 * 64 + low6 b3)%N
                        :: decode_utf8_surrogateescape r3
                      else escaped
                  | [] => escaped
                  end
            | [] => escaped
            end
      | [] => escaped
      end
  end.

Definition spec_decode (b : pybytes) : pystr :=
  decode_utf8_surrogateescape (map Byte.to_N b).

Definition spec_short_path (b : pybytes) (max_width : Z) : pystr :=
  shorten (spec_decode b) max_width.

(** The time of day [seconds_of_day] seconds and [us] microseconds after
    midnight. *)
Definition clock (seconds_of_day us : Z) : exn_class + datetime :=
  let h := seconds_of_day / 3600 in
  let m := (seconds_of_day / 60) mod 60 in
  let s := seconds_of_day mod 60 in
  match bool_dec (in_range 0 h 24 && in_range 0 m 60 && in_range 0 s 60
                  && in_range 0 us 1000000) true with
  | left fields => inr (mkDatetime h m s us fields)
  | right _ => inl OSError
  end.

(** Local time on a machine set to UTC: a [time_t] of 64 bits, and years 1
    to 9999. *)
Definition utc_of_timeval (seconds us : Z) : exn_class + datetime :=
  if (seconds <? - 2 ^ 63) || (2 ^ 63 <=? seconds) then inl OverflowError
  else if (seconds <? -62135596800) || (253402300799 <? seconds) then inl ValueError
  else clock (seconds mod 86400) us.

Definition utc_fromtimestamp (n : pynum) : exn_class + datetime :=
  match timeval_of n with
  | Some (seconds, us) => utc_of_timeval seconds us
  | None =>
      match n with
      | NumFloat Fnan => inl ValueError
      | _ => inl OverflowError
      end
  end.

(** A float whose value is a whole number of at most sixteen digits is
    written as that number and [.0], as CPython writes it; the stand-in for
    the others is the text with three decimals (CPython stops at the
    shortest text that reads back to the same float). *)
Definition example_float_repr (f : pyfloat) : pystr :=
  match f with
  | Ffin neg m e =>
      if (0 <=? e) && (Z.of_N m * 2 ^ e <? 10 ^ 16) then
        (if neg then u "-" else []) ++ decimal (Z.of_N m * 2 ^ e) ++ u ".0"
      else float_3f f
  | _ => float_3f f
  end.

Definition type_name (v : value) : pystr :=
  match v with
  | VNone => u "NoneType"
  | VBool _ => u "bool"
  | VInt _ => u "int"
  | VFloat _ => u "float"
  | VStr _ => u "str"
  | VBytes _ => u "bytes"
  | VDict _ => u "dict"
  end.

(** The messages of CPython 3.11, shortened where they quote a value. *)
Definition example_exn_str (e : exn) : pystr :=
  match exn_origin e with
  | NoAttribute v attr =>
      u "'" ++ type_name v ++ u "' object has no attribute '" ++ attr ++ u "'"
  | FormatSpec (VStr _) => u "Unknown format code 'f' for object of type 'str'"
  | FormatSpec v =>
      u "unsupported format string passed to " ++ type_name v ++ u ".__format__"
  | IntTooLarge _ => u "int too large to convert to float"
  | FromTimestamp _ =>
      match exn_type e with
      | OverflowError => u "timestamp out of range for platform time_t"
      | _ => u "year is out of range"
      end
  | FsdecodeArguments =>
      u "_fscodec.<locals>.fsdecode() takes 1 positional argument but 2 were given"
  | Fspath v => u "expected str, bytes or os.PathLike object, not " ++ type_name v
  | TextInit (VBytes _) => u "a bytes-like object is required, not 'dict'"
  | TextInit v => u "'" ++ type_name v ++ u "' object has no attribute 'translate'"
  | Encode _ => u "'utf-8' codec can't encode character: surrogates not allowed"
  end.

(** Latin-1 by the Unicode tables; beyond it the stand-in takes every code
    point but a surrogate for printable and leaves its case alone. *)
Definition example_isprintable (c : N) : bool :=
  ((160 <? c) && negb (c =? 173) && negb ((55296 <=? c) && (c <=? 57343)))%N.

Definition example_toupper (c : N) : pystr :=
  (if c =? 181 then [924]
   else if c =? 223 then [83; 83]
   else if c =? 255 then [376]
   else if (224 <=? c) && (c <=? 254) && negb (c =? 247) then [c - 32]
   else [c])%N.

(** A stand-in for the tables of [lsoph.ui.emoji]. *)
Definition example_emoji_map : list (pystr * pystr) :=
  [(u "OPEN", [128194%N]); (u "READ", [128214%N]); (u "WRITE", [128221%N]);
   (u "ERROR", [10071%N])].

(** A Linux machine set to UTC, with UTF-8 for the names of files. *)
Definition example_env : Env.
Proof.
  refine {|
    DEFAULT_EMOJI := [10068%N];
    EVENT_EMOJI_MAP := example_emoji_map;
    short_path := spec_short_path;
    fs_decode := spec_decode;
    isprintable := example_isprintable;
    toupper := example_toupper;
    float_repr := example_float_repr;
    float_format_3f := float_3f;
    fromtimestamp := utc_fromtimestamp;
    exn_str := example_exn_str;
    fromtimestamp_int_range := _;
    float_format_3f_rounds := fun f => eq_refl;
    fromtimestamp_timeval := _
  |}.
  - intros z dt. unfold utc_fromtimestamp, utc_of_timeval. cbn [timeval_of].
    destruct ((z <? - 2 ^ 63) || (2 ^ 63 <=? z)); [discriminate |].
    destruct (z <? -62135596800) eqn:Hlo; simpl; [discriminate |].
    destruct (253402300799 <? z) eqn:Hhi; simpl; [discriminate |].
    intros _. apply Z.ltb_ge in Hlo, Hhi.
    change (2 ^ 53) with 9007199254740992. lia.
  - intros n dt. unfold utc_fromtimestamp at 1.
    destruct (timeval_of n) as [[seconds us] |] eqn:Hval;
      [| destruct n as [z | [| neg | neg m e]]; discriminate].
    intros Hdt. unfold utc_fromtimestamp. cbn [timeval_of].
    unfold utc_of_timeval in *.
    destruct ((seconds <? - 2 ^ 63) || (2 ^ 63 <=? seconds)) eqn:Htime_t;
      [discriminate |].
    destruct ((seconds <? -62135596800) || (253402300799 <? seconds)) eqn:Hyear;
      [discriminate |].
    unfold clock in Hdt.
    destruct (bool_dec _ true) as [fields | fields] in Hdt; [| discriminate].
    injection Hdt as <-.
    assert (Hwhole : exists whole,
               clock (seconds mod 86400) 0 = inr whole
               /\ hour whole = seconds mod 86400 / 3600
               /\ minute whole = (seconds mod 86400 / 60) mod 60
               /\ second whole = (seconds mod 86400) mod 60).
    { unfold clock.
      destruct (bool_dec _ true) as [whole_fields | whole_fields].
      - eexists. repeat split; reflexivity.
      - exfalso. apply whole_fields.
        apply andb_prop in fields as [fields _]. now rewrite fields. }
    destruct Hwhole as (whole & Hclock & Hh & Hm & Hs).
    exists seconds, us, whole. cbn [hour minute second microsecond].
    rewrite Htime_t, Hyear. repeat split; assumption.
Defined.

(** ** What the statements are about *)

(** [part] occurs in [whole]. *)
Definition contains (part whole : pystr) : Prop :=
  exists before after, whole = before ++ part ++ after.

(** The screen once the header and the columns are set and the debug
    record is written (lines 68-84). *)
Definition prepared `{Env} (fi : FileInfo) (s : screen) : screen :=
  mkScreen (_create_header_text fi)
    (columns s ++ [mkColumn (u "Timestamp") (u "ts") (Some 12);
                   mkColumn (u "Event") (u "event") (Some 12);
                   mkColumn (u "Result") (u "result") (Some 6);
                   mkColumn (u "Details") (u "details") None])
    (rows s) (focused s)
    (log s ++ [mkLog DEBUG (Populating (length (event_history fi))
                              (VStr (fs_decode (path fi))))])
    (notifications s).

(** The single row of the handler. *)
Definition error_row `{Env} (e : exn) : list Text :=
  [Text_of (u "Error loading details: " ++ exn_str e) (u "bold red")].

Definition error_notification : notification :=
  mkNotification (u "Error loading details.") (u "error").

(** The screen the handler leaves, from the screen [s] the exception [e]
    reached it on. *)
Definition failed `{Env} (fi : FileInfo) (e : exn) (s : screen) : screen :=
  mkScreen (header s) (columns s) [error_row e] (focused s)
    (log s ++ [mkLog ERROR (ErrorPopulating (VStr (fs_decode (path fi))))])
    (notifications s ++ [error_notification]).

(** Does [s] start with [part]?  Does [part] occur in [s]? *)
Fixpoint starts_with (part s : pystr) : bool :=
  match part, s with
  | [], _ => true
  | c :: part', d :: s' => (c =? d)%N && starts_with part' s'
  | _ :: _, [] => false
  end.

Fixpoint occurs (part s : pystr) : bool :=
  starts_with part s ||
  match s with
  | [] => false
  | _ :: s' => occurs part s'
  end.

(** The items the first loop keeps, and what storing them one after the
    other makes of [filtered_details]. *)
Definition kept (its : pydict) : pydict :=
  filter (fun kv => if in_dec pystr_eq_dec (fst kv) EXCLUDED_KEYS then false else true) its.

Definition stored (its : pydict) (filtered_details : list (pystr * detail))
  : list (pystr * detail) :=
  fold_left (fun acc kv => store (fst kv) (Plain (snd kv)) acc) its filtered_details.


(** The digits of a padded field read back as a number. *)
Fixpoint digits_value (s : pystr) (acc : Z) : Z :=
  match s with
  | [] => acc
  | c :: rest => digits_value rest (10 * acc + (Z.of_N c - 48))
  end.

(** ** Example events *)

(** [{"ts": 1700000000.125, "type": "read", "success": True,
      "details": {"fd": 3}}] *)
Definition read_event : value :=
  VDict [(u "ts", VFloat (Ffin false 13600000001 (-3)));
         (u "type", VStr (u "read"));
         (u "success", VBool true);
         (u "details", VDict [(u "fd", VInt 3)])].

(** [{"ts": 1700000000, "type": "open", "success": False,
      "details": {"error_name": "ENOENT"}}] *)
Definition failed_open_event : value :=
  VDict [(u "ts", VInt 1700000000);
         (u "type", VStr (u "open"));
         (u "success", VBool false);
         (u "details", VDict [(u "error_name", VStr (u "ENOENT"))])].

(** [{"type": "open", "details": {"target_path": b"\xff"}}] *)
Definition open_bytes_path_event : value :=
  VDict [(u "type", VStr (u "open"));
         (u "details", VDict [(u "target_path", VBytes [xff])])].

(** [{"ts": "abc", "type": "read"}] *)
Definition text_ts_event : value :=
  VDict [(u "ts", VStr (u "abc")); (u "type", VStr (u "read"))].

(** [{"type": "stat", "details": None}] *)
Definition no_details_event : value :=
  VDict [(u "type", VStr (u "stat")); (u "details", VNone)].

(** [{"ts": -5, "details": {"target_path": "/tmp/x", "fd": 4}}] *)
Definition text_path_event : value :=
  VDict [(u "ts", VInt (-5));
         (u "details", VDict [(u "target_path", VStr (u "/tmp/x")); (u "fd", VInt 4)])].

(** [{"type": "open", "success": False, "details": {"error_name": ""}}] *)
Definition empty_name_event : value :=
  VDict [(u "type", VStr (u "open"));
         (u "success", VBool false);
         (u "details", VDict [(u "error_name", VStr [])])].

(** [{"type": "open", "success": False, "details": {"error_name": 2}}] *)
Definition errno_event : value :=
  VDict [(u "type", VStr (u "open"));
         (u "success", VBool false);
         (u "details", VDict [(u "error_name", VInt 2)])].

(** [{"type": "exec", "details": {"cmd": 60 * "x", "error_name": "ENOENT",
      "env": 60 * "y"}}] *)
Definition long_details_event : value :=
  VDict [(u "type", VStr (u "exec"));
         (u "details",
          VDict [(u "cmd", VStr (repeat 120%N 60));
                 (u "error_name", VStr (u "ENOENT"));
                 (u "env", VStr (repeat 121%N 60))])].

(** The file [/a], open, with the given history. *)
Definition watched (history : list value) : FileInfo :=
  mkFileInfo [x2f; x61] (u "open") true history.

(** ** More of the screen *)

(** The four columns of lines 73-79. *)
Definition TABLE_COLUMNS : list column :=
  [mkColumn (u "Timestamp") (u "ts") (Some 12);
   mkColumn (u "Event") (u "event") (Some 12);
   mkColumn (u "Result") (u "result") (Some 6);
   mkColumn (u "Details") (u "details") None].

(** The row of lines 87-89. *)
Definition no_history_row : list Text := [Text_of NO_HISTORY (u "dim")].

(** Is there a [bytes] value that one of the two loops hands to
    [os.fsdecode]: one under a key the first loop keeps, or one under a
    path key? *)
Definition bytes_to_decode (details_dict : pydict) : bool :=
  existsb (fun kv => is_bytes (snd kv)) (kept details_dict)
  || existsb (fun k => match lookup k details_dict with
                       | Some v => is_bytes v
                       | None => false
                       end) PATH_KEYS.

(** An expression of the body that leaves the screen as it is. *)
Definition silent {A} (m : M A) : Prop :=
  exists r, forall s, m s = (s, r).

(** An entry of [filtered_details] as the first loop stores it. *)
Definition plain_entry (kv : pystr * value) : pystr * detail :=
  (fst kv, Plain (snd kv)).

(** [{"ts": 10000000000000, "type": "read"}]: a time in the year 318857. *)
Definition far_future_event : value :=
  VDict [(u "ts", VInt 10000000000000); (u "type", VStr (u "read"))].

(** A text without a control character of ASCII: no code point below 32
    and no DEL. *)
Definition control_free (s : pystr) : Prop :=
  Forall (fun c => (32 <= c)%N /\ c <> 127%N) s.

(** A value with no [float] in it; the text of a float is the
    platform's. *)
Fixpoint float_free (v : value) : bool :=
  match v with
  | VFloat _ => false
  | VDict d => forallb (fun kv => float_free (snd kv)) d
  | _ => true
  end.

(** An entry of [filtered_details] whose key has no control character and
    whose value has no float. *)
Definition plain_keyed (kv : pystr * detail) : Prop :=
  control_free (fst kv)
  /\ match snd kv with
     | Plain v => float_free v = true
     | Rich _ => True
     end.

(** ** One event at a time *)

(** Building the cells of an event touches the screen only through the
    logger, so an event has its own log records and its own outcome. *)
Definition blank : screen := composed [].

Definition with_log (s : screen) (l : list log_record) : screen :=
  mkScreen (header s) (columns s) (rows s) (focused s) (log s ++ l) (notifications s).

Definition with_rows (s : screen) (r : list (list Text)) : screen :=
  mkScreen (header s) (columns s) (rows s ++ r) (focused s) (log s) (notifications s).

Definition logs_only {A} (m : M A) : Prop :=
  exists l r, forall s, m s = (with_log s l, r).

Section Events.
Context {E : Env}.

(** The log records an event gives rise to. *)
Definition records_of (event : value) : list log_record :=
  log (fst (event_cells event blank)).

(** The cells of an event, or the exception that formatting it raises. *)
Definition cells_of (event : value) : result (list Text) :=
  snd (event_cells event blank).

(** The row of an event that formats. *)
Definition row_of (event : value) : option (list Text) :=
  match cells_of event with
  | inr cells => Some cells
  | inl _ => None
  end.

End Events.

Lemma with_log_nil (s : screen) : with_log s [] = s.
Proof. destruct s; unfold with_log; simpl. now rewrite app_nil_r. Qed.

Lemma with_log_app (s : screen) (l l' : list log_record) :
  with_log (with_log s l) l' = with_log s (l ++ l').
Proof. unfold with_log; simpl. now rewrite app_assoc. Qed.

Lemma with_rows_nil (s : screen) : with_rows s [] = s.
Proof. destruct s; unfold with_rows; simpl. now rewrite app_nil_r. Qed.

Lemma with_rows_app (s : screen) (r r' : list (list Text)) :
  with_rows (with_rows s r) r' = with_rows s (r ++ r').
Proof. unfold with_rows; simpl. now rewrite app_assoc. Qed.

Lemma with_rows_log (s : screen) (r : list (list Text)) (l : list log_record) :
  with_rows (with_log s l) r = with_log (with_rows s r) l.
Proof. reflexivity. Qed.

Lemma logs_only_ret {A} (a : A) : logs_only (ret a).
Proof. exists [], (ok a). intros s. unfold ret. now rewrite with_log_nil. Qed.

Lemma logs_only_throw {A} (e : exn) : logs_only (@throw A e).
Proof. exists [], (inl e). intros s. unfold throw. now rewrite with_log_nil. Qed.

Lemma logs_only_lift {A} (r : result A) : logs_only (lift r).
Proof. exists [], r. intros s. unfold lift. now rewrite with_log_nil. Qed.

Lemma logs_only_emit (l : log_level) (m : log_message) : logs_only (emit l m).
Proof. exists [mkLog l m], (ok tt). reflexivity. Qed.

Lemma logs_only_bind {A B} (m : M A) (k : A -> M B) :
  logs_only m -> (forall a, logs_only (k a)) -> logs_only (mbind m k).
Proof.
  intros (l & r & Hm) Hk. destruct r as [e | a].
  - exists l, (inl e). intros s. unfold mbind. now rewrite Hm.
  - destruct (Hk a) as (l' & r' & Hka).
    exists (l ++ l'), r'. intros s. unfold mbind.
    now rewrite Hm, Hka, with_log_app.
Qed.

Create HintDb py.
#[local] Hint Resolve logs_only_ret logs_only_throw logs_only_lift logs_only_emit : py.

Lemma logs_only_timestamp `{Env} (ts_raw : value) : logs_only (timestamp ts_raw).
Proof.
  unfold timestamp. apply logs_only_bind; auto with py. intros ts_str.
  destruct (is_int_or_float ts_raw && greater_than_zero ts_raw); auto with py.
  destruct (fromtimestamp (number_of ts_raw)) as [c | dt]; auto with py.
  destruct (except_timestamp c); auto with py.
  apply logs_only_bind; auto with py.
Qed.

Lemma logs_only_event_cells `{Env} (event : value) : logs_only (event_cells event).
Proof.
  unfold event_cells.
  repeat (apply logs_only_bind; [auto using logs_only_timestamp with py | intros ?]).
  auto with py.
Qed.

(** Running the body of the loop on any screen adds the event's records
    to the log and gives the event's outcome. *)
Lemma event_cells_run `{Env} (event : value) (s : screen) :
  event_cells event s = (with_log s (records_of event), cells_of event).
Proof.
  destruct (logs_only_event_cells event) as (l & r & Hrun).
  unfold records_of, cells_of. rewrite !Hrun. simpl. reflexivity.
Qed.

(** ** The loop and the handler *)

Lemma add_event_row_run `{Env} (event : value) (s : screen) :
  add_event_row event s =
  match cells_of event with
  | inr cells => (with_rows (with_log s (records_of event)) [cells], ok tt)
  | inl e => (with_log s (records_of event), inl e)
  end.
Proof.
  unfold add_event_row, mbind. rewrite event_cells_run.
  destruct (cells_of event); reflexivity.
Qed.

(** When every event formats, the loop appends their rows in order. *)
Lemma for_each_formats `{Env} (history : list value) :
  forall (built : list (list Text)) (s : screen),
    map row_of history = map Some built ->
    for_each add_event_row history s =
    (with_log (with_rows s built) (flat_map records_of history), ok tt).
Proof.
  induction history as [| event rest IH]; intros built s Hrows.
  - destruct built; [| discriminate]. simpl.
    unfold ret. now rewrite with_rows_nil, with_log_nil.
  - destruct built as [| cells built]; [discriminate |].
    simpl in Hrows. injection Hrows as Hrow Hrest.
    simpl. unfold mbind. rewrite add_event_row_run.
    unfold row_of in Hrow. destruct (cells_of event) as [e | c]; [discriminate |].
    injection Hrow as ->.
    rewrite (IH built _ Hrest). cbv beta iota delta [ok].
    rewrite with_rows_app, with_rows_log, with_log_app. reflexivity.
Qed.

(** The first event that raises ends the loop: the rows of the events
    before it are on the screen, the events after it are not looked at. *)
Lemma for_each_raises `{Env} (before : list value) (event : value) (after : list value) :
  forall (built : list (list Text)) (e : exn) (s : screen),
    map row_of before = map Some built ->
    cells_of event = inl e ->
    for_each add_event_row (before ++ event :: after) s =
    (with_log (with_rows s built) (flat_map records_of before ++ records_of event),
     inl e).
Proof.
  induction before as [| first rest IH]; intros built e s Hrows Hraise.
  - destruct built; [| discriminate]. simpl.
    unfold mbind. rewrite add_event_row_run, Hraise.
    now rewrite with_rows_nil.
  - destruct built as [| cells built]; [discriminate |].
    simpl in Hrows. injection Hrows as Hrow Hrest.
    simpl. unfold mbind. rewrite add_event_row_run.
    unfold row_of in Hrow. destruct (cells_of first) as [e' | c]; [discriminate |].
    injection Hrow as ->.
    rewrite (IH built e _ Hrest Hraise). cbv beta iota delta [ok].
    rewrite with_rows_app, with_rows_log, with_log_app, app_assoc. reflexivity.
Qed.

Lemma on_mount_try_run `{Env} (fi : FileInfo) (s : screen) :
  on_mount_try fi s =
  match event_history fi with
  | [] => add_row [Text_of NO_HISTORY (u "dim")] (prepared fi s)
  | _ => mbind (for_each add_event_row (event_history fi)) (fun _ => focus) (prepared fi s)
  end.
Proof.
  unfold on_mount_try, prepared, mbind, update_header, add_column, emit, lift; simpl.
  rewrite <- !app_assoc. simpl.
  destruct (event_history fi); reflexivity.
Qed.

Lemma on_mount_except_run `{Env} (fi : FileInfo) (e : exn) (s : screen) :
  on_mount_except fi e s = (failed fi e s, ok tt).
Proof. reflexivity. Qed.

(** The handler takes over whatever the body raises. *)
Lemma on_mount_raises `{Env} (fi : FileInfo) (s s' : screen) (e : exn) :
  on_mount_try fi s = (s', inl e) ->
  on_mount fi s = (failed fi e s', ok tt).
Proof.
  intros Htry. unfold on_mount, try_except. rewrite Htry.
  apply on_mount_except_run.
Qed.

Lemma on_mount_returns `{Env} (fi : FileInfo) (s s' : screen) :
  on_mount_try fi s = (s', ok tt) ->
  on_mount fi s = (s', ok tt).
Proof.
  intros Htry. unfold on_mount, try_except. now rewrite Htry.
Qed.

(** [on_mount] ends normally on every screen and every file. *)
Lemma on_mount_never_raises `{Env} (fi : FileInfo) (s : screen) :
  snd (on_mount fi s) = ok tt.
Proof.
  unfold on_mount, try_except.
  destruct (on_mount_try fi s) as [s' [e | []]]; reflexivity.
Qed.

(** ** The table of a file *)

(** C4: with an empty event history the table holds exactly one row, the
    text "No event history recorded for this file."; no event is looked
    at (the table is not even focused), the only log record is the debug
    one, and nothing is notified. *)
Theorem empty_history_single_row `{Env} (fi : FileInfo) :
  event_history fi = [] ->
  rows (mounted fi) =
    [[mkText (u "No event history recorded for this file.") (u "dim")]]
  /\ log (mounted fi) =
       [mkLog DEBUG (Populating 0 (VStr (fs_decode (path fi))))]
  /\ notifications (mounted fi) = []
  /\ focused (mounted fi) = false.
Proof.
  intros Hempty. unfold mounted, on_mount, try_except.
  rewrite on_mount_try_run, Hempty.
  unfold prepared. rewrite Hempty. simpl.
  repeat split; reflexivity.
Qed.

Lemma empty_history_single_row_witness :
  event_history (watched []) = []
  /\ rows (@mounted example_env (watched [])) =
       [[mkText (u "No event history recorded for this file.") (u "dim")]].
Proof.
  split; [reflexivity |].
  apply (@empty_history_single_row example_env (watched [])). reflexivity.
Defined.

(** C7: when the body of the table construction raises, the handler
    replaces whatever rows were built by exactly one row, the text
    "Error loading details: " followed by the text of the exception; it
    posts one notification of severity "error", writes one error record,
    and [on_mount] itself ends normally. *)
Theorem whole_table_failure `{Env} (fi : FileInfo) (s s' : screen) (e : exn) :
  on_mount_try fi s = (s', inl e) ->
  snd (on_mount fi s) = ok tt
  /\ rows (fst (on_mount fi s)) =
       [[Text_of (u "Error loading details: " ++ exn_str e) (u "bold red")]]
  /\ notifications (fst (on_mount fi s)) =
       notifications s' ++ [mkNotification (u "Error loading details.") (u "error")]
  /\ log (fst (on_mount fi s)) =
       log s' ++ [mkLog ERROR (ErrorPopulating (VStr (fs_decode (path fi))))].
Proof.
  intros Htry. rewrite (on_mount_raises fi s s' e Htry).
  repeat split; reflexivity.
Qed.

Lemma whole_table_failure_witness :
  let fi := watched [read_event; no_details_event] in
  let e := mkExn AttributeError (NoAttribute VNone (u "items")) in
  @on_mount_try example_env fi blank = (fst (@on_mount_try example_env fi blank), inl e)
  /\ rows (fst (@on_mount example_env fi blank)) =
       [[mkText (u "Error loading details: 'NoneType' object has no attribute 'items'")
           (u "bold red")]].
Proof.
  assert (Htry : @on_mount_try example_env (watched [read_event; no_details_event]) blank
                 = (fst (@on_mount_try example_env
                           (watched [read_event; no_details_event]) blank),
                    inl (mkExn AttributeError (NoAttribute VNone (u "items")))))
    by (vm_compute; reflexivity).
  split; [exact Htry |].
  destruct (@whole_table_failure example_env _ _ _ _ Htry) as (_ & Hrows & _).
  rewrite Hrows. vm_compute. reflexivity.
Defined.

(** What [mounted] is when the loop gets through the whole history. *)
Lemma mounted_formats `{Env} (fi : FileInfo) (built : list (list Text)) :
  event_history fi <> [] ->
  map row_of (event_history fi) = map Some built ->
  on_mount fi (composed (_create_header_text fi)) =
  (mkScreen (_create_header_text fi)
     (columns (prepared fi blank)) built true
     (log (prepared fi blank) ++ flat_map records_of (event_history fi)) [],
   ok tt).
Proof.
  intros Hsome Hrows. apply on_mount_returns.
  rewrite on_mount_try_run.
  destruct (event_history fi) as [| first rest] eqn:Hhist; [congruence |].
  unfold mbind. rewrite (for_each_formats _ built _ Hrows).
  unfold focus, with_log, with_rows, prepared; simpl. rewrite Hhist. reflexivity.
Qed.

(** What [mounted] is when an event raises. *)
Lemma mounted_raises `{Env} (fi : FileInfo) (before : list value) (event : value)
    (after : list value) (built : list (list Text)) (e : exn) :
  event_history fi = before ++ event :: after ->
  map row_of before = map Some built ->
  cells_of event = inl e ->
  on_mount fi (composed (_create_header_text fi)) =
  (mkScreen (_create_header_text fi)
     (columns (prepared fi blank)) [error_row e] false
     (log (prepared fi blank) ++ (flat_map records_of before ++ records_of event)
      ++ [mkLog ERROR (ErrorPopulating (VStr (fs_decode (path fi))))])
     [error_notification],
   ok tt).
Proof.
  intros Hhist Hrows Hraise.
  assert (Htry : on_mount_try fi (composed (_create_header_text fi)) =
                 (with_log (with_rows (prepared fi (composed (_create_header_text fi))) built)
                    (flat_map records_of before ++ records_of event), inl e)).
  { rewrite on_mount_try_run.
    destruct (event_history fi) as [| first rest] eqn:Hh.
    - destruct before; discriminate.
    - rewrite Hhist. unfold mbind.
      now rewrite (for_each_raises before event after built e _ Hrows Hraise). }
  rewrite (on_mount_raises _ _ _ _ Htry).
  unfold failed, with_log, with_rows, prepared; simpl. reflexivity.
Qed.

(** C2, as the code has it: an exception raised while one event is
    formatted is not caught for that event.  It ends the loop and reaches
    the handler of the whole table: the rows built for the events before
    are cleared, the events after are not looked at (they leave no log
    record), and the table ends with the single row "Error loading
    details: ..." and one notification. *)
Theorem event_failure_replaces_table `{Env} (fi : FileInfo) (before : list value)
    (event : value) (after : list value) (built : list (list Text)) (e : exn) :
  event_history fi = before ++ event :: after ->
  map row_of before = map Some built ->
  cells_of event = inl e ->
  rows (mounted fi) = [error_row e]
  /\ notifications (mounted fi) = [error_notification]
  /\ focused (mounted fi) = false
  /\ log (mounted fi) =
       [mkLog DEBUG (Populating (length (event_history fi)) (VStr (fs_decode (path fi))))]
       ++ (flat_map records_of before ++ records_of event)
       ++ [mkLog ERROR (ErrorPopulating (VStr (fs_decode (path fi))))].
Proof.
  intros Hhist Hrows Hraise. unfold mounted.
  rewrite (mounted_raises fi before event after built e Hhist Hrows Hraise).
  repeat split; reflexivity.
Qed.

Lemma event_failure_replaces_table_witness :
  let fi := watched [read_event; no_details_event; failed_open_event] in
  let e := mkExn AttributeError (NoAttribute VNone (u "items")) in
  event_history fi = [read_event] ++ no_details_event :: [failed_open_event]
  /\ @cells_of example_env no_details_event = inl e
  /\ rows (@mounted example_env fi) = [@error_row example_env e].
Proof.
  split; [reflexivity |]. split; [vm_compute; reflexivity |].
  refine (proj1 (@event_failure_replaces_table example_env
                   (watched [read_event; no_details_event; failed_open_event])
                   [read_event] no_details_event [failed_open_event]
                   [match @cells_of example_env read_event with
                    | inr cells => cells
                    | inl _ => []
                    end]
                   (mkExn AttributeError (NoAttribute VNone (u "items"))) _ _ _));
    vm_compute; reflexivity.
Defined.

(** C2, as stated, fails: of the two events of this history the first
    formats and the second does not (its details are [None]); the failure
    is not confined to the second event, the row of the first is gone and
    the table holds one row for the two events. *)
Lemma event_failure_not_local :
  exists first_row,
    @cells_of example_env read_event = ok first_row
    /\ @row_of example_env no_details_event = None
    /\ rows (@mounted example_env (watched [read_event; no_details_event])) =
         [[mkText (u "Error loading details: 'NoneType' object has no attribute 'items'")
             (u "bold red")]]
    /\ ~ In first_row (rows (@mounted example_env (watched [read_event; no_details_event]))).
Proof.
  eexists. split; [vm_compute; reflexivity |].
  split; [vm_compute; reflexivity |].
  split; [vm_compute; reflexivity |].
  vm_compute. intros [Heq | []]. discriminate Heq.
Qed.

(** C5, as the code has it: when every event of a non-empty history
    formats without raising, the table holds exactly the rows of the
    events, one per event and in the order of the history (whatever that
    order is), and the table is focused. *)
Theorem one_row_per_event_in_order `{Env} (fi : FileInfo) (built : list (list Text)) :
  event_history fi <> [] ->
  map row_of (event_history fi) = map Some built ->
  rows (mounted fi) = built
  /\ length (rows (mounted fi)) = length (event_history fi)
  /\ focused (mounted fi) = true
  /\ notifications (mounted fi) = [].
Proof.
  intros Hsome Hrows. unfold mounted.
  rewrite (mounted_formats fi built Hsome Hrows). simpl.
  repeat split; try reflexivity.
  rewrite <- (length_map Some built), <- Hrows. apply length_map.
Qed.

Lemma one_row_per_event_in_order_witness :
  let history := [failed_open_event; read_event; text_path_event] in
  history <> []
  /\ map (@row_of example_env) history =
       map Some (rows (@mounted example_env (watched history)))
  /\ length (rows (@mounted example_env (watched history))) = 3%nat.
Proof.
  split; [discriminate |]. split; [vm_compute; reflexivity |].
  refine (proj1 (proj2 (@one_row_per_event_in_order example_env
            (watched [failed_open_event; read_event; text_path_event])
            (rows (@mounted example_env
                     (watched [failed_open_event; read_event; text_path_event])))
            _ _))).
  - discriminate.
  - vm_compute; reflexivity.
Defined.

(** C5, as stated, fails: this history has three events and the table one
    row, because the details of the event in the middle are [None] and
    have no items. *)
Lemma three_events_one_row :
  length (event_history (watched [read_event; no_details_event; failed_open_event]))
  = 3%nat
  /\ @row_of example_env no_details_event = None
  /\ length (rows (@mounted example_env
                     (watched [read_event; no_details_event; failed_open_event])))
     = 1%nat.
Proof. repeat split; vm_compute; reflexivity. Qed.

(** ** The timestamp *)

Lemma zpad_length (w : nat) (n : Z) : length (zpad w n) = w.
Proof.
  revert n. induction w as [| w IH]; intros n; simpl; [reflexivity |].
  rewrite length_app, IH. simpl. lia.
Qed.

(** Every character of a padded field is a decimal digit. *)
Lemma zpad_digits (w : nat) (n : Z) :
  Forall (fun c => (48 <= c <= 57)%N) (zpad w n).
Proof.
  revert n. induction w as [| w IH]; intros n; simpl; [constructor |].
  apply Forall_app. split; [apply IH |].
  constructor; [| constructor]. unfold digit.
  pose proof (Z.mod_pos_bound n 10 ltac:(lia)). lia.
Qed.

Lemma digits_value_app (s t : pystr) (acc : Z) :
  digits_value (s ++ t) acc = digits_value t (digits_value s acc).
Proof. revert acc. induction s as [| c s IH]; intros acc; simpl; auto. Qed.

Lemma zpad_value (w : nat) (n : Z) :
  0 <= n < 10 ^ Z.of_nat w -> digits_value (zpad w n) 0 = n.
Proof.
  revert n. induction w as [| w IH]; intros n Hn.
  - simpl in *. lia.
  - simpl zpad. rewrite digits_value_app, IH.
    + cbn [digits_value]. unfold digit.
      pose proof (Z.mod_pos_bound n 10 ltac:(lia)).
      rewrite N2Z.inj_add, Z2N.id by lia.
      pose proof (Z.div_mod n 10 ltac:(lia)). change (Z.of_N 48) with 48. lia.
    + rewrite Nat2Z.inj_succ, Z.pow_succ_r in Hn by lia.
      split; [apply Z.div_pos; lia | apply Z.div_lt_upper_bound; lia].
Qed.



Lemma round_to_double_small (z : Z) : Z.abs z < 2 ^ 53 -> round_to_double z = z.
Proof.
  intros Hz. unfold round_to_double.
  assert (Hlog : Z.log2 (Z.abs z) < 53).
  { destruct (Z.eq_dec (Z.abs z) 0) as [-> | Hnz]; [simpl; lia |].
    apply Z.log2_lt_pow2; lia. }
  destruct (Z.log2 (Z.abs z) + 1 <=? 53) eqn:Hle; [reflexivity |].
  apply Z.leb_gt in Hle. lia.
Qed.

(** An integer of fewer than 54 bits is written exactly. *)
Lemma format_3f_int `{Env} (z : Z) :
  Z.abs z < 2 ^ 53 -> format_3f (VInt z) = ok (decimal z ++ u ".000").
Proof.
  intros Hz. unfold format_3f, int_to_float. rewrite (round_to_double_small z Hz).
  assert (Hbig : 2 ^ 53 < 2 ^ 1024) by (apply Z.pow_lt_mono_r; lia).
  destruct (2 ^ 1024 <=? Z.abs z) eqn:Hle; [apply Z.leb_le in Hle; lia |].
  reflexivity.
Qed.







(** The clock text has no control code for [Text] to strip: the cell shows
    it as it is. *)
Lemma strip_control_codes_id (s : pystr) :
  Forall (fun c => (13 < c)%N) s -> strip_control_codes s = s.
Proof.
  induction 1 as [| c s Hc Hs IH]; [reflexivity |].
  unfold strip_control_codes in *. cbn [filter]. rewrite IH.
  replace (existsb (N.eqb c) STRIP_CONTROL_CODES) with false; [reflexivity |].
  symmetry. unfold STRIP_CONTROL_CODES. cbn [existsb].
  repeat (apply orb_false_intro; [apply N.eqb_neq; lia |]). reflexivity.
Qed.

Lemma clock_text_plain (dt : datetime) :
  let text := zpad 2 (hour dt) ++ u ":" ++ zpad 2 (minute dt) ++ u ":"
              ++ zpad 2 (second dt) ++ u "." ++ zpad 3 (microsecond dt / 1000) in
  plain (Text_of text []) = text /\ length text = 12%nat.
Proof.
  intros text. split.
  - apply strip_control_codes_id. unfold text.
    assert (Hdigits : forall w n, Forall (fun c => (13 < c)%N) (zpad w n)).
    { intros w n. eapply Forall_impl; [| apply zpad_digits].
      simpl. intros c Hc. lia. }
    repeat first [ apply Hdigits
                 | apply Forall_app; split
                 | constructor; [reflexivity | constructor] ].
  - unfold text. rewrite !length_app, !zpad_length. reflexivity.
Qed.

(** The part of the recovery that is there: an exception of
    [fromtimestamp] that is a [TypeError], a [ValueError] or an [OSError]
    is caught on the spot, a warning is logged and the three-decimal text
    stands. *)
Lemma timestamp_recovers `{Env} (ts_raw : value) (ts_str : pystr) (c : exn_class)
    (s : screen) :
  is_int_or_float ts_raw = true ->
  greater_than_zero ts_raw = true ->
  format_3f ts_raw = ok ts_str ->
  fromtimestamp (number_of ts_raw) = inl c ->
  except_timestamp c = true ->
  timestamp ts_raw s =
  (with_log s [mkLog WARNING
                 (CouldNotFormatTimestamp (str ts_raw)
                    (exn_str (mkExn c (FromTimestamp (number_of ts_raw)))))],
   ok ts_str).
Proof.
  intros Hnum Hpos Hfmt Hraise Hcaught.
  unfold timestamp, mbind, lift. rewrite Hfmt, Hnum, Hpos, Hraise, Hcaught.
  reflexivity.
Qed.

(** A timestamp that is no number never reaches the [try]: the format of
    line 96 raises first. *)
Lemma timestamp_not_a_number `{Env} (ts_raw : value) (s : screen) :
  is_int_or_float ts_raw = false ->
  exists e, timestamp ts_raw s = (s, inl e)
            /\ exn_origin e = FormatSpec ts_raw.
Proof.
  intros Hnum.
  destruct ts_raw; try discriminate; eexists; split; reflexivity.
Qed.

(** An exception of [fromtimestamp] outside the three classes of the
    [except] clause, such as the [OverflowError] of a timestamp beyond the
    platform's [time_t], leaves the loop. *)
Lemma timestamp_not_caught `{Env} (ts_raw : value) (ts_str : pystr) (c : exn_class)
    (s : screen) :
  is_int_or_float ts_raw = true ->
  greater_than_zero ts_raw = true ->
  format_3f ts_raw = ok ts_str ->
  fromtimestamp (number_of ts_raw) = inl c ->
  except_timestamp c = false ->
  timestamp ts_raw s = (s, inl (mkExn c (FromTimestamp (number_of ts_raw)))).
Proof.
  intros Hnum Hpos Hfmt Hraise Hcaught.
  unfold timestamp, mbind, lift. rewrite Hfmt, Hnum, Hpos, Hraise, Hcaught.
  reflexivity.
Qed.

(** C3, on the code: the event [{"ts": "abc", "type": "read"}] makes
    [f"{ts_raw:.3f}"] raise [ValueError] at line 96, before the [try] of
    line 97.  No warning is logged and no fallback text is made: the
    exception reaches the handler of the whole table, which leaves the
    error row alone in the place of the row of the event before, on every
    platform. *)
Theorem text_timestamp_aborts_table (E : Env) :
  let e := mkExn ValueError (FormatSpec (VStr (u "abc"))) in
  let fi := watched [text_path_event; text_ts_event] in
  timestamp (VStr (u "abc")) blank = (blank, inl e)
  /\ (exists cells, row_of text_path_event = Some cells)
  /\ rows (mounted fi) = [error_row e]
  /\ notifications (mounted fi) = [error_notification]
  /\ Forall (fun r => level r <> WARNING) (log (mounted fi)).
Proof.
  intros e fi. split; [reflexivity |].
  split; [eexists; reflexivity |].
  unfold mounted, fi.
  rewrite (mounted_raises (watched [text_path_event; text_ts_event])
             [text_path_event] text_ts_event []
             [match cells_of text_path_event with inr c => c | inl _ => [] end] e
             eq_refl eq_refl eq_refl).
  simpl. repeat split; try reflexivity.
  repeat constructor; discriminate.
Qed.

(** ** The details *)

(** The call with two arguments raises whatever the first one is. *)
Lemma fsdecode_surrogateescape_raises `{Env} (v : value) :
  fsdecode_surrogateescape v = raise TypeError FsdecodeArguments.
Proof. reflexivity. Qed.

(** A [bytes] value under a key of the second loop ends the loop by that
    exception. *)
Lemma path_details_bytes `{Env} (details_dict : pydict) (keys : list pystr) :
  forall filtered_details,
    (exists k v, In k keys /\ lookup k details_dict = Some v /\ is_bytes v = true) ->
    path_details details_dict keys filtered_details = raise TypeError FsdecodeArguments.
Proof.
  induction keys as [| path_key rest IH]; intros fd (k & v & Hin & Hk & Hv).
  - destruct Hin.
  - simpl. destruct (lookup path_key details_dict) as [w |] eqn:Hw.
    + destruct (is_bytes w) eqn:Hbytes; [reflexivity |].
      apply IH. destruct Hin as [-> | Hin]; [congruence |]. now exists k, v.
    + apply IH. destruct Hin as [-> | Hin]; [congruence |]. now exists k, v.
Qed.

(** So does one under any key the first loop keeps. *)
Lemma filter_details_bytes `{Env} (its : pydict) :
  forall filtered_details,
    (exists k v, In (k, v) its /\ ~ In k EXCLUDED_KEYS /\ is_bytes v = true) ->
    filter_details its filtered_details = raise TypeError FsdecodeArguments.
Proof.
  induction its as [| [k0 v0] rest IH]; intros fd (k & v & Hin & Hk & Hv).
  - destruct Hin.
  - cbn [filter_details]. destruct (in_dec pystr_eq_dec k0 EXCLUDED_KEYS) as [Hex | Hex].
    + apply IH. destruct Hin as [Heq | Hin]; [| now exists k, v].
      injection Heq as -> ->. contradiction.
    + destruct (is_bytes v0) eqn:Hbytes; [reflexivity |].
      apply IH. destruct Hin as [Heq | Hin]; [| now exists k, v].
      injection Heq as -> ->. congruence.
Qed.

(** C1, on the code: [os.fsdecode] takes one argument and lines 144 and
    159 call it with two, so a [bytes] value under [target_path], valid
    text or not, is never decoded.  The call raises [TypeError] and the
    exception reaches the handler of the whole table: in place of a row
    with [target_path=...] the table holds the error row alone, on every
    platform. *)
Theorem bytes_target_path_aborts_table (E : Env) (b : pybytes) (success : value) :
  let e := mkExn TypeError FsdecodeArguments in
  let fi := watched [text_path_event; open_bytes_path_event] in
  filtered_details_of (VDict [(u "target_path", VBytes b)]) success = inl e
  /\ cells_of open_bytes_path_event = inl e
  /\ (exists cells, row_of text_path_event = Some cells)
  /\ rows (mounted fi) = [error_row e]
  /\ notifications (mounted fi) = [error_notification].
Proof.
  intros e fi. split; [reflexivity |]. split; [reflexivity |].
  split; [eexists; reflexivity |].
  unfold mounted, fi.
  rewrite (mounted_raises (watched [text_path_event; open_bytes_path_event])
             [text_path_event] open_bytes_path_event []
             [match cells_of text_path_event with inr c => c | inl _ => [] end] e
             eq_refl eq_refl eq_refl).
  split; reflexivity.
Qed.

Lemma lookup_In {V} (k : pystr) (v : V) (d : list (pystr * V)) :
  lookup k d = Some v -> In (k, v) d.
Proof.
  induction d as [| [k' v'] rest IH]; simpl; [discriminate |].
  destruct (pystr_eq_dec k k') as [-> | Hne].
  - intros [= ->]. now left.
  - intros Hl. right. auto.
Qed.

Lemma lookup_None {V} (k : pystr) (d : list (pystr * V)) :
  lookup k d = None <-> ~ In k (map fst d).
Proof.
  induction d as [| [k' v'] rest IH]; simpl; [tauto |].
  destruct (pystr_eq_dec k k') as [-> | Hne].
  - split; [discriminate | intros Hn; exfalso; apply Hn; now left].
  - rewrite IH. split; [intros Hn [Heq | Hin]; congruence | tauto].
Qed.

(** In a [dict], whose keys are distinct, an item is what [get] finds. *)
Lemma lookup_NoDup {V} (k : pystr) (v : V) (d : list (pystr * V)) :
  NoDup (map fst d) -> In (k, v) d -> lookup k d = Some v.
Proof.
  induction d as [| [k' v'] rest IH]; simpl; intros Hnd Hin; [destruct Hin |].
  inversion Hnd as [| ? ? Hfresh Hrest]; subst.
  destruct (pystr_eq_dec k k') as [-> | Hne].
  - destruct Hin as [[= ->] | Hin]; [reflexivity |].
    exfalso. apply Hfresh. now apply (in_map fst) in Hin.
  - destruct Hin as [[= ? ?] | Hin]; [congruence | auto].
Qed.

Lemma store_In {V} (k : pystr) (v : V) (d : list (pystr * V)) :
  In (k, v) (store k v d).
Proof.
  induction d as [| [k' v'] rest IH]; simpl; [now left |].
  destruct (pystr_eq_dec k k') as [-> | Hne]; [now left | now right].
Qed.

Lemma store_In_inv {V} (k : pystr) (v : V) (d : list (pystr * V)) (k' : pystr) (x : V) :
  In (k', x) (store k v d) -> (k' = k /\ x = v) \/ In (k', x) d.
Proof.
  induction d as [| [k1 v1] rest IH]; simpl.
  - intros [[= <- <-] | []]. now left.
  - destruct (pystr_eq_dec k k1) as [-> | Hne]; simpl.
    + intros [[= <- <-] | Hin]; [now left | now right; right].
    + intros [Heq | Hin]; [now right; left |].
      destruct (IH Hin) as [Hnew | Hold]; [now left | now right; right].
Qed.

Lemma store_other {V} (k : pystr) (v : V) (d : list (pystr * V)) (k' : pystr) (x : V) :
  k' <> k -> In (k', x) d -> In (k', x) (store k v d).
Proof.
  intros Hne. induction d as [| [k1 v1] rest IH]; simpl; [tauto |].
  destruct (pystr_eq_dec k k1) as [-> | Hne1]; simpl.
  - intros [[= <- <-] | Hin]; [congruence | now right].
  - intros [Heq | Hin]; [now left | right; auto].
Qed.

Lemma stored_In_inv (its : pydict) :
  forall (acc : details) (k : pystr) (x : detail),
    In (k, x) (stored its acc) ->
    (exists v, In (k, v) its /\ x = Plain v) \/ In (k, x) acc.
Proof.
  induction its as [| [k0 v0] rest IH]; intros acc k x; simpl; [now right |].
  intros Hin. destruct (IH _ _ _ Hin) as [(v & Hv & ->) | Hacc].
  - left. exists v. split; [now right | reflexivity].
  - destruct (store_In_inv _ _ _ _ _ Hacc) as [[-> ->] | Hold]; [| now right].
    left. exists v0. split; [now left | reflexivity].
Qed.

Lemma stored_preserves (its : pydict) :
  forall (acc : details) (k : pystr) (x : detail),
    In (k, x) acc -> ~ In k (map fst its) -> In (k, x) (stored its acc).
Proof.
  induction its as [| [k0 v0] rest IH]; intros acc k x Hin Hfresh; simpl; [exact Hin |].
  simpl in Hfresh. apply IH; [| tauto].
  apply store_other; [| exact Hin]. intros ->. tauto.
Qed.

(** Stored one after the other, the items of a [dict] are all there. *)
Lemma stored_In (its : pydict) :
  forall (acc : details) (k : pystr) (v : value),
    NoDup (map fst its) -> In (k, v) its -> In (k, Plain v) (stored its acc).
Proof.
  induction its as [| [k0 v0] rest IH]; intros acc k v Hnd Hin; [destruct Hin |].
  simpl in Hnd. inversion Hnd as [| ? ? Hfresh Hrest]; subst. simpl.
  destruct Hin as [[= -> ->] | Hin].
  - apply stored_preserves; [apply store_In | exact Hfresh].
  - now apply IH.
Qed.

Lemma kept_In (its : pydict) (k : pystr) (v : value) :
  In (k, v) (kept its) <-> In (k, v) its /\ ~ In k EXCLUDED_KEYS.
Proof.
  unfold kept. rewrite filter_In. cbn [fst].
  destruct (in_dec pystr_eq_dec k EXCLUDED_KEYS) as [Hex | Hex].
  - split; [intros [_ Hno]; discriminate | intros [_ Hno]; contradiction].
  - split; intros [Hin _]; split; auto.
Qed.

Lemma kept_NoDup (its : pydict) :
  NoDup (map fst its) -> NoDup (map fst (kept its)).
Proof.
  induction its as [| [k0 v0] rest IH]; intros Hnd; [constructor |].
  cbn [map fst] in Hnd. inversion Hnd as [| ? ? Hfresh Hrest]; subst.
  unfold kept in *. cbn [filter fst].
  destruct (in_dec pystr_eq_dec k0 EXCLUDED_KEYS); [auto |].
  cbn [map fst]. constructor; [| auto].
  intros Hin. apply Hfresh. apply in_map_iff in Hin as ([k v] & <- & Hin).
  apply filter_In in Hin as [Hin _]. now apply (in_map fst) in Hin.
Qed.

(** When the first loop ends normally it has stored the items it keeps,
    none of which was [bytes]. *)
Lemma filter_details_ok `{Env} (its : pydict) :
  forall acc fd,
    filter_details its acc = ok fd ->
    fd = stored (kept its) acc
    /\ Forall (fun kv => is_bytes (snd kv) = false) (kept its).
Proof.
  induction its as [| [k0 v0] rest IH]; intros acc fd.
  - simpl. intros [= <-]. split; [reflexivity | constructor].
  - cbn [filter_details]. unfold kept. cbn [filter fst].
    destruct (in_dec pystr_eq_dec k0 EXCLUDED_KEYS) as [Hex | Hex].
    + apply IH.
    + destruct (is_bytes v0) eqn:Hbytes.
      * rewrite fsdecode_surrogateescape_raises. discriminate.
      * intros Hrun. destruct (IH _ _ Hrun) as [-> Hall].
        split; [reflexivity | now constructor].
Qed.

Lemma filter_details_total `{Env} (its : pydict) :
  forall acc,
    Forall (fun kv => is_bytes (snd kv) = false) (kept its) ->
    filter_details its acc = ok (stored (kept its) acc).
Proof.
  induction its as [| [k0 v0] rest IH]; intros acc; [reflexivity |].
  cbn [filter_details]. unfold kept. cbn [filter fst].
  destruct (in_dec pystr_eq_dec k0 EXCLUDED_KEYS) as [Hex | Hex]; [apply IH |].
  intros Hall. inversion Hall as [| ? ? Hhead Htail]; subst. simpl in Hhead.
  rewrite Hhead. now apply IH.
Qed.

(** When the second loop ends normally it has stored nothing. *)
Lemma path_details_ok `{Env} (details_dict : pydict) (keys : list pystr) :
  forall acc fd,
    path_details details_dict keys acc = ok fd ->
    fd = acc
    /\ forall k v, In k keys -> lookup k details_dict = Some v -> is_bytes v = false.
Proof.
  induction keys as [| path_key rest IH]; intros acc fd; simpl.
  - intros [= <-]. split; [reflexivity | intros k v []].
  - destruct (lookup path_key details_dict) as [w |] eqn:Hw.
    + destruct (is_bytes w) eqn:Hbytes.
      * discriminate.
      * intros Hrun. destruct (IH _ _ Hrun) as [-> Hall]. split; [reflexivity |].
        intros k v [<- | Hin] Hk; [congruence | eauto].
    + intros Hrun. destruct (IH _ _ Hrun) as [-> Hall]. split; [reflexivity |].
      intros k v [<- | Hin] Hk; [congruence | eauto].
Qed.

Lemma path_details_total `{Env} (details_dict : pydict) (keys : list pystr) :
  forall acc,
    (forall k v, In k keys -> lookup k details_dict = Some v -> is_bytes v = false) ->
    path_details details_dict keys acc = ok acc.
Proof.
  induction keys as [| path_key rest IH]; intros acc Hall; simpl; [reflexivity |].
  destruct (lookup path_key details_dict) as [w |] eqn:Hw.
  - rewrite (Hall path_key w (or_introl eq_refl) Hw). apply IH.
    intros k v Hin. apply Hall. now right.
  - apply IH. intros k v Hin. apply Hall. now right.
Qed.

(** What the third step makes of [filtered_details]. *)
Lemma error_detail_ok `{Env} (details_dict : pydict) (success : value) (base fd : details) :
  error_detail details_dict success base = ok fd ->
  (truthy (dict_get details_dict (u "error_name") VNone) && negb (truthy success) = false
   /\ fd = base)
  \/ (truthy (dict_get details_dict (u "error_name") VNone) && negb (truthy success) = true
      /\ exists name,
           dict_get details_dict (u "error_name") VNone = VStr name
           /\ fd = store (u "ERROR") (Rich (Text_of name (u "red"))) base).
Proof.
  unfold error_detail.
  destruct (truthy (dict_get details_dict (u "error_name") VNone) && negb (truthy success)).
  - intros Hrun. right. split; [reflexivity |].
    destruct (dict_get details_dict (u "error_name") VNone); try discriminate.
    injection Hrun as <-. now eexists.
  - intros [= <-]. now left.
Qed.

(** The three steps, when they end normally. *)
Lemma filtered_details_of_ok `{Env} (details_dict : pydict) (success : value) (fd : details) :
  filtered_details_of (VDict details_dict) success = ok fd ->
  Forall (fun kv => is_bytes (snd kv) = false) (kept details_dict)
  /\ (forall k v, In k PATH_KEYS -> lookup k details_dict = Some v -> is_bytes v = false)
  /\ error_detail details_dict success (stored (kept details_dict) []) = ok fd.
Proof.
  unfold filtered_details_of. cbn [items bind ok].
  destruct (filter_details details_dict []) as [e | fd1] eqn:Hfilter; [discriminate |].
  destruct (filter_details_ok _ _ _ Hfilter) as [-> Hkept]. cbn [bind].
  destruct (path_details details_dict PATH_KEYS (stored (kept details_dict) []))
    as [e | fd2] eqn:Hpath; [discriminate |].
  destruct (path_details_ok _ _ _ _ Hpath) as [-> Hpaths]. cbn [bind].
  auto.
Qed.

(** They end normally when no value the loops look at is [bytes] and the
    error name of a failure, if there is one, is a [str]. *)
Lemma filtered_details_of_total `{Env} (details_dict : pydict) (success : value) :
  Forall (fun kv => is_bytes (snd kv) = false) (kept details_dict) ->
  (forall k v, In k PATH_KEYS -> lookup k details_dict = Some v -> is_bytes v = false) ->
  (truthy (dict_get details_dict (u "error_name") VNone) && negb (truthy success) = true ->
   exists name, dict_get details_dict (u "error_name") VNone = VStr name) ->
  exists fd, filtered_details_of (VDict details_dict) success = ok fd.
Proof.
  intros Hkept Hpaths Hname. unfold filtered_details_of. cbn [items bind ok].
  rewrite (filter_details_total _ _ Hkept). cbn [bind ok].
  rewrite (path_details_total _ _ _ Hpaths). cbn [bind ok].
  unfold error_detail.
  destruct (truthy (dict_get details_dict (u "error_name") VNone) && negb (truthy success)).
  - destruct (Hname eq_refl) as (name & ->). now eexists.
  - now eexists.
Qed.

Lemma contains_refl (s : pystr) : contains s s.
Proof. exists [], []. now rewrite app_nil_r. Qed.

Lemma join_contains (sep part : pystr) (parts : list pystr) :
  In part parts -> contains part (join sep parts).
Proof.
  induction parts as [| p rest IH]; intros Hin; [destruct Hin |].
  destruct rest as [| q rest'].
  - destruct Hin as [-> | []]. apply contains_refl.
  - change (join sep (p :: q :: rest')) with (p ++ sep ++ join sep (q :: rest')).
    destruct Hin as [-> | Hin].
    + exists [], (sep ++ join sep (q :: rest')). reflexivity.
    + destruct (IH Hin) as (before & after & Hjoin).
      exists (p ++ sep ++ before), after. rewrite Hjoin.
      now rewrite <- !app_assoc.
Qed.

(** The part of every entry of [filtered_details] is in [details_str]. *)
Lemma details_str_contains `{Env} (kv : pystr * detail) (fd : details) :
  In kv fd -> contains (details_part kv) (details_str_of fd).
Proof.
  intros Hin. unfold details_str_of. apply join_contains. now apply in_map.
Qed.

(** The loops store values of the event only: a [Text] among the details
    is the one of the [ERROR] entry. *)
Lemma stored_plain (its : pydict) (k : pystr) (t : Text) :
  ~ In (k, Rich t) (stored its []).
Proof.
  intros Hin. destruct (stored_In_inv _ _ _ _ Hin) as [(v & _ & Heq) | []].
  discriminate.
Qed.

Lemma PATH_KEYS_excluded (k : pystr) : In k PATH_KEYS -> In k EXCLUDED_KEYS.
Proof.
  unfold PATH_KEYS, EXCLUDED_KEYS. simpl. intuition.
Qed.

Lemma PATH_KEYS_not_ERROR (k : pystr) : In k PATH_KEYS -> k <> u "ERROR".
Proof.
  unfold PATH_KEYS. simpl. intuition; subst; discriminate.
Qed.

(** The cells of an event that formats, read off the body of the loop. *)
Lemma event_cells_ok `{Env} (event : pydict) (s s' : screen) (cells : list Text) :
  event_cells (VDict event) s = (s', ok cells) ->
  exists ts_str fd b,
    filtered_details_of (dict_get event (u "details") (VDict []))
      (dict_get event (u "success") (VBool true)) = ok fd
    /\ encode_utf8_surrogateescape (details_str_of fd) = ok b
    /\ cells =
       [Text_of ts_str [];
        etype_text (upper (str (dict_get event (u "type") (VStr (u "?")))))
          (dict_get event (u "success") (VBool true));
        result_text (dict_get event (u "success") (VBool true));
        Text_of (short_path b 100) []].
Proof.
  unfold event_cells, mbind, lift, get, ret. cbv beta iota delta [ok].
  destruct (timestamp _ s) as [s1 [e | ts_str]]; [discriminate |].
  destruct (filtered_details_of _ _) as [e | fd] eqn:Hfd; [discriminate |].
  unfold details_display_of, bind.
  destruct (encode_utf8_surrogateescape (details_str_of fd)) as [e | b] eqn:Hb;
    [discriminate |].
  cbv beta iota delta [ok]. intros [= <- <-].
  exists ts_str, fd, b. auto.
Qed.

(** C10: when one of the four path keys holds a value that is not bytes,
    text for instance, no entry of [filtered_details] has that key, so
    [details_str], which is joined from those entries, has no part for
    it: the key is among those the first loop leaves out, the second loop
    stores a path key only for a [bytes] value, and the third stores
    [ERROR]. *)
Theorem text_path_value_omitted `{Env} (details_dict : pydict) (success : value)
    (k : pystr) (v : value) (fd : details) :
  In k PATH_KEYS ->
  lookup k details_dict = Some v ->
  is_bytes v = false ->
  filtered_details_of (VDict details_dict) success = ok fd ->
  In k EXCLUDED_KEYS
  /\ path_details details_dict [k] (stored (kept details_dict) []) =
       ok (stored (kept details_dict) [])
  /\ lookup k fd = None
  /\ forall x, ~ In (k, x) fd.
Proof.
  intros Hpath Hk Hv Hrun.
  pose proof (PATH_KEYS_excluded k Hpath) as Hex.
  destruct (filtered_details_of_ok _ _ _ Hrun) as (_ & _ & Herr).
  assert (Hbase : forall x, ~ In (k, x) (stored (kept details_dict) [])).
  { intros x Hin. destruct (stored_In_inv _ _ _ _ Hin) as [(w & Hw & _) | []].
    apply kept_In in Hw as [_ Hno]. contradiction. }
  assert (Hnone : forall x, ~ In (k, x) fd).
  { intros x Hin.
    destruct (error_detail_ok _ _ _ _ Herr) as [[_ ->] | [_ (name & _ & ->)]].
    - exact (Hbase x Hin).
    - destruct (store_In_inv _ _ _ _ _ Hin) as [[Heq _] | Hold].
      + exact (PATH_KEYS_not_ERROR k Hpath Heq).
      + exact (Hbase x Hold). }
  split; [exact Hex |]. split; [| split; [| exact Hnone]].
  - cbn [path_details]. rewrite Hk, Hv. reflexivity.
  - apply lookup_None. intros Hin.
    apply in_map_iff in Hin as ([k' x] & Heq & Hin). simpl in Heq. subst k'.
    exact (Hnone x Hin).
Qed.

Lemma text_path_value_omitted_witness :
  let details_dict := [(u "target_path", VStr (u "/tmp/x")); (u "fd", VInt 4)] in
  In (u "target_path") PATH_KEYS
  /\ @filtered_details_of example_env (VDict details_dict) (VBool true) =
       ok [(u "fd", Plain (VInt 4))]
  /\ lookup (u "target_path") [(u "fd", Plain (VInt 4))] = None.
Proof.
  split; [now left |]. split; [reflexivity |].
  refine (proj1 (proj2 (proj2 (@text_path_value_omitted example_env
            [(u "target_path", VStr (u "/tmp/x")); (u "fd", VInt 4)] (VBool true)
            (u "target_path") (VStr (u "/tmp/x")) [(u "fd", Plain (VInt 4))]
            _ _ _ _)))); [now left | reflexivity | reflexivity | reflexivity].
Defined.

(** C9, as the code has it: [error_name] is not among the keys left out,
    so when the details of an event (a [dict]: its keys are distinct) hold
    a truthy error name and are built without an exception,
    [details_str], the joined text that the cell shows shortened, has the
    entry [error_name=] followed by the [repr] of the value, whatever the
    success flag; for a failure the value is then a text, and
    [details_str] has the entry [ERROR=] as well, followed by the [repr]
    of the text that [Text] keeps of the name. *)
Theorem error_name_listed_twice `{Env} (details_dict : pydict) (success v : value)
    (fd : details) :
  NoDup (map fst details_dict) ->
  In (u "error_name", v) details_dict ->
  truthy v = true ->
  filtered_details_of (VDict details_dict) success = ok fd ->
  ~ In (u "error_name") EXCLUDED_KEYS
  /\ contains (u "error_name=" ++ repr v) (details_str_of fd)
  /\ (truthy success = false ->
      exists name,
        v = VStr name
        /\ repr v = repr_str name
        /\ contains (u "ERROR=" ++ repr_str (strip_control_codes name))
             (details_str_of fd)).
Proof.
  intros Hnd Hin Htruthy Hrun.
  assert (Hkey : ~ In (u "error_name") EXCLUDED_KEYS).
  { unfold EXCLUDED_KEYS. simpl. intuition discriminate. }
  destruct (filtered_details_of_ok _ _ _ Hrun) as (_ & _ & Herr).
  assert (Hbase : In (u "error_name", Plain v) (stored (kept details_dict) [])).
  { apply stored_In; [now apply kept_NoDup |]. apply kept_In. auto. }
  assert (Hget : dict_get details_dict (u "error_name") VNone = v).
  { unfold dict_get. now rewrite (lookup_NoDup _ _ _ Hnd Hin). }
  destruct (error_detail_ok _ _ _ _ Herr) as [[Hcond ->] | [Hcond (name & Hname & ->)]].
  - split; [exact Hkey |]. split.
    + apply (details_str_contains (u "error_name", Plain v)). exact Hbase.
    + intros Hfail. rewrite Hget, Htruthy, Hfail in Hcond. discriminate.
  - split; [exact Hkey |]. split.
    + apply (details_str_contains (u "error_name", Plain v)).
      apply store_other; [discriminate | exact Hbase].
    + intros _. exists name. rewrite Hget in Hname. clear Hget. subst v.
      split; [reflexivity |]. split; [reflexivity |].
      apply (details_str_contains
               (u "ERROR", Rich (Text_of name (u "red")))).
      apply store_In.
Qed.

Lemma error_name_listed_twice_witness :
  let details_dict := [(u "error_name", VStr (u "ENOENT")); (u "fd", VInt 4)] in
  NoDup (map fst details_dict)
  /\ truthy (VStr (u "ENOENT")) = true
  /\ @details_str_of example_env
       [(u "error_name", Plain (VStr (u "ENOENT"))); (u "fd", Plain (VInt 4));
        (u "ERROR", Rich (mkText (u "ENOENT") (u "red")))] =
     u "error_name='ENOENT', fd=4, ERROR='ENOENT'"
  /\ contains (u "error_name='ENOENT'")
       (u "error_name='ENOENT', fd=4, ERROR='ENOENT'").
Proof.
  assert (Hnd : NoDup (map fst [(u "error_name", VStr (u "ENOENT")); (u "fd", VInt 4)])).
  { repeat constructor; simpl; intuition discriminate. }
  split; [exact Hnd |]. split; [reflexivity |]. split; [reflexivity |].
  exact (proj1 (proj2 (@error_name_listed_twice example_env
           [(u "error_name", VStr (u "ENOENT")); (u "fd", VInt 4)] (VBool false)
           (VStr (u "ENOENT"))
           [(u "error_name", Plain (VStr (u "ENOENT"))); (u "fd", Plain (VInt 4));
            (u "ERROR", Rich (mkText (u "ENOENT") (u "red")))]
           Hnd (or_introl eq_refl) eq_refl eq_refl))).
Defined.

(** C8, as the code has it: an event whose [success] is falsy and whose
    details hold the error name "ENOENT" has, when its row is built and
    whatever its type, the result cell FAIL and a [details_str] that
    contains [ERROR='ENOENT']; the details cell shows [short_path] of that
    text.  In general the [ERROR] entry, the only [Text] among the
    details, is there exactly when the error name is truthy (there is one
    and it is not empty) and [success] is falsy. *)
Theorem failed_event_error_entry `{Env} (event details_dict : pydict) (success : value)
    (s s' : screen) (cells : list Text) :
  lookup (u "success") event = Some success ->
  truthy success = false ->
  lookup (u "details") event = Some (VDict details_dict) ->
  lookup (u "error_name") details_dict = Some (VStr (u "ENOENT")) ->
  event_cells (VDict event) s = (s', ok cells) ->
  (exists ts_text event_text details_str b,
      cells = [ts_text; event_text; mkText (u "FAIL") (u "red");
               Text_of (short_path b 100) []]
      /\ encode_utf8_surrogateescape details_str = ok b
      /\ contains (u "ERROR='ENOENT'") details_str)
  /\ (forall d success' fd,
        filtered_details_of (VDict d) success' = ok fd ->
        (exists t, In (u "ERROR", Rich t) fd) <->
        truthy (dict_get d (u "error_name") VNone) = true /\ truthy success' = false).
Proof.
  intros Hsuccess Hfail Hdetails Hname Hrun. split.
  - destruct (event_cells_ok _ _ _ _ Hrun) as (ts_str & fd & b & Hfd & Hb & ->).
    unfold dict_get in Hfd |- *. rewrite Hsuccess, Hdetails in *.
    destruct (filtered_details_of_ok _ _ _ Hfd) as (_ & _ & Herr).
    eexists _, _, (details_str_of fd), b.
    split; [| split; [exact Hb |]].
    + unfold result_text. rewrite Hfail. reflexivity.
    + destruct (error_detail_ok _ _ _ _ Herr) as [[Hcond _] | [_ (name & Hget & ->)]].
      * unfold dict_get in Hcond. rewrite Hname, Hfail in Hcond. discriminate.
      * unfold dict_get in Hget. rewrite Hname in Hget. injection Hget as <-.
        apply (details_str_contains (u "ERROR", Rich (Text_of (u "ENOENT") (u "red")))).
        apply store_In.
  - intros d success' fd Hfd.
    destruct (filtered_details_of_ok _ _ _ Hfd) as (_ & _ & Herr).
    destruct (error_detail_ok _ _ _ _ Herr) as [[Hcond ->] | [Hcond (name & _ & ->)]].
    + split.
      * intros (t & Hin). exfalso. exact (stored_plain _ _ _ Hin).
      * intros [Hn Hs]. rewrite Hn, Hs in Hcond. discriminate.
    + split.
      * intros _. apply andb_prop in Hcond as [Hn Hs].
        split; [exact Hn |]. now apply negb_true_iff in Hs.
      * intros _. eexists. apply store_In.
Qed.

Lemma failed_event_error_entry_witness :
  exists cells,
    @event_cells example_env failed_open_event blank = (blank, ok cells)
    /\ map plain cells =
       [u "22:13:20.000"; [10071%N] ++ u " OPEN"; u "FAIL";
        u "error_name='ENOENT', ERROR='ENOENT'"]
    /\ exists ts_text event_text details_str b,
         cells = [ts_text; event_text; mkText (u "FAIL") (u "red");
                  Text_of (spec_short_path b 100) []]
         /\ encode_utf8_surrogateescape details_str = ok b
         /\ contains (u "ERROR='ENOENT'") details_str.
Proof.
  eexists. split; [vm_compute; reflexivity |]. split; [vm_compute; reflexivity |].
  refine (proj1 (@failed_event_error_entry example_env
            [(u "ts", VInt 1700000000); (u "type", VStr (u "open"));
             (u "success", VBool false);
             (u "details", VDict [(u "error_name", VStr (u "ENOENT"))])]
            [(u "error_name", VStr (u "ENOENT"))] (VBool false) blank blank _
            eq_refl eq_refl eq_refl eq_refl _)).
  vm_compute. reflexivity.
Defined.

(** C8, as stated, fails: the details of this failed event hold the field
    [error_name], with the empty text, and line 164 tests the name itself:
    the result is FAIL, [filtered_details] has the entry of the field and
    no [ERROR] entry beside it. *)
Lemma empty_error_name_no_entry :
  lookup (u "error_name") [(u "error_name", VStr [])] = Some (VStr [])
  /\ truthy (VBool false) = false
  /\ @filtered_details_of example_env (VDict [(u "error_name", VStr [])]) (VBool false)
     = ok [(u "error_name", Plain (VStr []))]
  /\ lookup (u "ERROR") [(u "error_name", Plain (VStr []))] = None
  /\ (exists cells,
        @cells_of example_env empty_name_event = ok cells
        /\ map plain cells =
           [u "0.000"; [10071%N] ++ u " OPEN"; u "FAIL"; u "error_name=''"]).
Proof.
  repeat split; try reflexivity.
  eexists. split; vm_compute; reflexivity.
Qed.

Lemma starts_with_app (part rest : pystr) : starts_with part (part ++ rest) = true.
Proof.
  induction part as [| c part IH]; [reflexivity |].
  simpl. now rewrite N.eqb_refl, IH.
Qed.

(** [occurs] decides [contains]. *)
Lemma contains_occurs (part s : pystr) : contains part s -> occurs part s = true.
Proof.
  intros (before & after & ->).
  induction before as [| c before IH].
  - assert (Hstart : starts_with part (part ++ after) = true)
      by apply starts_with_app.
    cbn [app]. destruct (part ++ after); cbn [occurs]; now rewrite Hstart.
  - cbn [app occurs]. rewrite IH. apply orb_true_r.
Qed.

(** C9, as stated, fails, in two ways.  The error name of the first event
    is the number 2, which is truthy, and the event is a failure: [Text]
    takes a text only, the details are not built and the table holds the
    error row.  The error name of the second is "ENOENT" and its details
    are built, between two long entries: the joined text has the entry,
    the text of the cell, cut to 100 characters around the ellipsis, has
    not. *)
Lemma error_name_not_always_shown :
  truthy (VInt 2) = true
  /\ @cells_of example_env errno_event =
       inl (mkExn AttributeError (TextInit (VInt 2)))
  /\ rows (@mounted example_env (watched [errno_event])) =
       [[mkText (u "Error loading details: 'int' object has no attribute 'translate'")
           (u "bold red")]]
  /\ (exists ts_text event_text result details_text,
        @cells_of example_env long_details_event =
          ok [ts_text; event_text; result; details_text]
        /\ length (plain details_text) = 100%nat
        /\ occurs (u "error_name") (plain details_text) = false).
Proof.
  split; [reflexivity |]. split; [reflexivity |]. split; [vm_compute; reflexivity |].
  do 4 eexists. split; [vm_compute; reflexivity |].
  split; vm_compute; reflexivity.
Qed.

(** ** Every history *)

Lemma row_of_Some `{Env} (event : value) (cells : list Text) :
  row_of event = Some cells <-> cells_of event = ok cells.
Proof.
  unfold row_of. destruct (cells_of event) as [e | c].
  - split; discriminate.
  - split; intros [= ->]; reflexivity.
Qed.

Lemma row_of_None `{Env} (event : value) :
  row_of event = None <-> exists e, cells_of event = inl e.
Proof.
  unfold row_of. destruct (cells_of event) as [e | c].
  - split; [intros _; now exists e | reflexivity].
  - split; [discriminate | intros (e & He); discriminate].
Qed.

(** Either every event of a history formats, or there is a first one that
    raises. *)
Lemma history_cases `{Env} (history : list value) :
  (exists built, map row_of history = map Some built)
  \/ (exists before event after built e,
        history = before ++ event :: after
        /\ map row_of before = map Some built
        /\ cells_of event = inl e).
Proof.
  induction history as [| first rest IH].
  - left. now exists [].
  - destruct (cells_of first) as [e | cells] eqn:Hfirst.
    + right. exists [], first, rest, [], e. auto.
    + assert (Hrow : row_of first = Some cells) by now apply row_of_Some.
      destruct IH as [(built & Hbuilt) | (before & event & after & built & e & -> & Hb & He)].
      * left. exists (cells :: built). simpl. now rewrite Hrow, Hbuilt.
      * right. exists (first :: before), event, after, (cells :: built), e.
        repeat split; [simpl; now rewrite Hrow, Hb | exact He].
Qed.

Lemma formats_Forall `{Env} (history : list value) :
  (exists built, map row_of history = map Some built)
  <-> Forall (fun event => row_of event <> None) history.
Proof.
  induction history as [| first rest IH].
  - split; [constructor | now exists []].
  - split.
    + intros (built & Hb). destruct built as [| c built]; [discriminate |].
      simpl in Hb. injection Hb as Hc Hb. constructor; [congruence |].
      apply IH. now exists built.
    + intros Hall. inversion Hall as [| ? ? Hfirst Hrest]; subst.
      apply IH in Hrest as (built & Hb).
      destruct (row_of first) as [c |] eqn:Hc; [| congruence].
      exists (c :: built). simpl. now rewrite Hc, Hb.
Qed.

Lemma mounted_empty `{Env} (fi : FileInfo) :
  event_history fi = [] ->
  on_mount fi (composed (_create_header_text fi)) =
  (mkScreen (_create_header_text fi) (columns (prepared fi blank)) [no_history_row]
     false (log (prepared fi blank)) [],
   ok tt).
Proof.
  intros Hempty. apply on_mount_returns. rewrite on_mount_try_run, Hempty.
  unfold prepared, add_row. simpl. rewrite Hempty. reflexivity.
Qed.

(** The cells of an event that formats are four. *)
Lemma cells_of_four `{Env} (event : value) (cells : list Text) :
  cells_of event = ok cells -> length cells = 4%nat.
Proof.
  unfold cells_of. destruct event as [| | | | | | ev]; try discriminate.
  destruct (event_cells (VDict ev) blank) as [s' r] eqn:Hrun. simpl.
  intros ->. destruct (event_cells_ok _ _ _ _ Hrun) as (? & ? & ? & _ & _ & ->).
  reflexivity.
Qed.

(** The three ways [on_mount] ends. *)
Lemma mounted_run `{Env} (fi : FileInfo) :
  let debug := mkLog DEBUG (Populating (length (event_history fi))
                              (VStr (fs_decode (path fi)))) in
  let error := mkLog ERROR (ErrorPopulating (VStr (fs_decode (path fi)))) in
  (event_history fi = []
   /\ mounted fi =
      mkScreen (_create_header_text fi) TABLE_COLUMNS [no_history_row] false [debug] [])
  \/ (exists built,
        event_history fi <> []
        /\ map row_of (event_history fi) = map Some built
        /\ mounted fi =
           mkScreen (_create_header_text fi) TABLE_COLUMNS built true
             (debug :: flat_map records_of (event_history fi)) [])
  \/ (exists before event after built e,
        event_history fi = before ++ event :: after
        /\ map row_of before = map Some built
        /\ cells_of event = inl e
        /\ mounted fi =
           mkScreen (_create_header_text fi) TABLE_COLUMNS [error_row e] false
             (debug :: (flat_map records_of before ++ records_of event) ++ [error])
             [error_notification]).
Proof.
  intros debug error. unfold mounted.
  destruct (event_history fi) as [| first rest] eqn:Hhist.
  - left. split; [reflexivity |]. rewrite (mounted_empty fi Hhist).
    unfold prepared. simpl. rewrite Hhist. reflexivity.
  - right. destruct (history_cases (first :: rest))
      as [(built & Hb) | (before & event & after & built & e & Hsplit & Hb & He)].
    + left. exists built. split; [discriminate |]. split; [exact Hb |].
      rewrite <- Hhist in Hb. rewrite (mounted_formats fi built); [| congruence | exact Hb].
      unfold prepared, debug. simpl. rewrite Hhist. reflexivity.
    + right. exists before, event, after, built, e.
      split; [exact Hsplit |]. split; [exact Hb |]. split; [exact He |].
      rewrite <- Hhist in Hsplit.
      rewrite (mounted_raises fi before event after built e Hsplit Hb He).
      unfold prepared, debug, error. simpl. rewrite Hhist. reflexivity.
Qed.

(** X1: whatever the history, and whether or not an event raises, the
    screen keeps the header that [compose] gave it and the table has the
    four columns Timestamp, Event, Result and Details, once each: the
    handler's [table.clear()] removes rows only. *)
Theorem header_and_columns_kept (E : Env) (fi : FileInfo) :
  header (mounted fi) = _create_header_text fi
  /\ columns (mounted fi) = TABLE_COLUMNS
  /\ map label (columns (mounted fi)) =
       [u "Timestamp"; u "Event"; u "Result"; u "Details"].
Proof.
  destruct (mounted_run fi)
    as [[_ ->] | [(built & _ & _ & ->) | (? & ? & ? & ? & e & _ & _ & _ & ->)]];
    repeat split; reflexivity.
Qed.

(** X2: [on_mount] ends in exactly one of three ways.  An empty history
    gives the single informational row; a history whose events all format
    gives their rows; otherwise the table holds the error row of the first
    event that raises, whatever the events after it are. *)
Theorem table_of_every_history (E : Env) (fi : FileInfo) :
  (event_history fi = [] /\ rows (mounted fi) = [no_history_row])
  \/ (event_history fi <> []
      /\ map row_of (event_history fi) = map Some (rows (mounted fi)))
  \/ (exists before event after e,
        event_history fi = before ++ event :: after
        /\ Forall (fun earlier => row_of earlier <> None) before
        /\ cells_of event = inl e
        /\ rows (mounted fi) = [error_row e]).
Proof.
  destruct (mounted_run fi)
    as [[Hempty ->] | [(built & Hsome & Hb & ->)
                      | (before & event & after & built & e & Hsplit & Hb & He & ->)]].
  - left. auto.
  - right. left. auto.
  - right. right. exists before, event, after, e.
    repeat split; auto. apply formats_Forall. now exists built.
Qed.

(** X3: the table is never left empty, and each of its rows has either
    the four cells of an event, one per column, or the single cell of the
    informational and of the error row. *)
Theorem rows_never_empty (E : Env) (fi : FileInfo) :
  rows (mounted fi) <> []
  /\ Forall (fun row => length row = 4%nat \/ length row = 1%nat) (rows (mounted fi)).
Proof.
  destruct (mounted_run fi)
    as [[Hempty ->] | [(built & Hsome & Hb & ->)
                      | (before & event & after & built & e & Hsplit & Hb & He & ->)]];
    simpl.
  - split; [discriminate | repeat constructor; now right].
  - split.
    + intros ->. destruct (event_history fi); [congruence | discriminate].
    + clear Hsome. revert built Hb.
      induction (event_history fi) as [| event rest IH]; intros built Hb.
      * destruct built; [constructor | discriminate].
      * destruct built as [| cells built]; [discriminate |].
        simpl in Hb. injection Hb as Hc Hb.
        constructor; [| now apply IH].
        left. apply (cells_of_four event). now apply row_of_Some.
  - split; [discriminate | repeat constructor; now right].
Qed.

(** X4: a notification is posted exactly when some event of the history
    raises, and then it is the one notification "Error loading details."
    of severity "error"; when every event formats, and when there is no
    event, nothing is posted. *)
Theorem notified_when_an_event_raises (E : Env) (fi : FileInfo) :
  (Exists (fun event => row_of event = None) (event_history fi) <->
   notifications (mounted fi) =
     [mkNotification (u "Error loading details.") (u "error")])
  /\ (Forall (fun event => row_of event <> None) (event_history fi) <->
      notifications (mounted fi) = []).
Proof.
  destruct (mounted_run fi)
    as [[Hempty ->] | [(built & Hsome & Hb & ->)
                      | (before & event & after & built & e & Hsplit & Hb & He & ->)]];
    simpl.
  - rewrite Hempty. split; split; try discriminate; auto.
    intros Hex. inversion Hex.
  - assert (Hall : Forall (fun event => row_of event <> None) (event_history fi))
      by (apply formats_Forall; now exists built).
    split; split; try discriminate; auto.
    intros Hex. exfalso.
    apply Exists_exists in Hex as (event & Hin & Hnone).
    rewrite Forall_forall in Hall. exact (Hall event Hin Hnone).
  - assert (Hnone : row_of event = None) by (apply row_of_None; now exists e).
    split; split; try discriminate; auto.
    + intros _. rewrite Hsplit. apply Exists_app. right. now constructor.
    + intros Hall. exfalso. rewrite Hsplit in Hall.
      apply Forall_app in Hall as [_ Hall]. inversion Hall as [| ? ? Hevent _]; subst.
      now apply Hevent.
Qed.

(** ** The log *)

Lemma silent_ret {A} (a : A) : silent (ret a).
Proof. now exists (ok a). Qed.

Lemma silent_lift {A} (r : result A) : silent (lift r).
Proof. now exists r. Qed.

Lemma silent_bind {A B} (m : M A) (k : A -> M B) :
  silent m -> (forall a, silent (k a)) -> silent (mbind m k).
Proof.
  intros (r & Hm) Hk. destruct r as [e | a].
  - exists (inl e). intros s. unfold mbind. now rewrite Hm.
  - destruct (Hk a) as (r' & Hka). exists r'. intros s. unfold mbind.
    now rewrite Hm, Hka.
Qed.

(** The timestamp of an event logs nothing or one warning. *)
Lemma timestamp_log `{Env} (ts_raw : value) :
  exists l r,
    (l = [] \/ exists m, l = [mkLog WARNING m])
    /\ forall s, timestamp ts_raw s = (with_log s l, r).
Proof.
  unfold timestamp, mbind, lift.
  destruct (format_3f ts_raw) as [e | ts_str].
  - exists [], (inl e). split; [now left |]. intros s. now rewrite with_log_nil.
  - destruct (is_int_or_float ts_raw && greater_than_zero ts_raw).
    + destruct (fromtimestamp (number_of ts_raw)) as [c | dt].
      * destruct (except_timestamp c).
        -- eexists [_], _. split; [right; now eexists |]. intros s. reflexivity.
        -- eexists [], _. split; [now left |]. intros s. unfold throw.
           now rewrite with_log_nil.
      * eexists [], _. split; [now left |]. intros s. unfold ret.
        now rewrite with_log_nil.
    + eexists [], _. split; [now left |]. intros s. unfold ret.
      now rewrite with_log_nil.
Qed.

(** So does the whole event: past the timestamp nothing is logged. *)
Lemma records_of_warning `{Env} (event : value) :
  records_of event = [] \/ exists m, records_of event = [mkLog WARNING m].
Proof.
  destruct (get event (u "ts") (VInt 0)) as [e | ts_raw] eqn:Hts.
  - left. unfold records_of, event_cells.
    unfold mbind at 1. unfold lift at 1. now rewrite Hts.
  - destruct (timestamp_log ts_raw) as (l & r & Hshape & Hrun).
    assert (Hrest : forall ts_str : pystr, silent
      (ty <- lift (get event (u "type") (VStr (u "?"))) ;;
       success <- lift (get event (u "success") (VBool true)) ;;
       details_value <- lift (get event (u "details") (VDict [])) ;;
       filtered_details <- lift (filtered_details_of details_value success) ;;
       details_display <- lift (details_display_of (details_str_of filtered_details)) ;;
       ret [Text_of ts_str []; etype_text (upper (str ty)) success;
            result_text success; Text_of details_display []])%py).
    { intros ts_str.
      repeat (apply silent_bind; [apply silent_lift | intros ?]). apply silent_ret. }
    assert (Hlog : records_of event = l).
    { unfold records_of, event_cells.
      unfold mbind at 1. unfold lift at 1. rewrite Hts.
      unfold mbind at 1. rewrite Hrun.
      destruct r as [e | ts_str]; [reflexivity |].
      destruct (Hrest ts_str) as (r' & Hsilent). now rewrite Hsilent. }
    rewrite Hlog. exact Hshape.
Qed.

Lemma records_of_history `{Env} (history : list value) :
  Forall (fun r => level r = WARNING) (flat_map records_of history)
  /\ (length (flat_map records_of history) <= length history)%nat.
Proof.
  induction history as [| event rest [IHw IHn]]; [split; [constructor | reflexivity] |].
  simpl. rewrite length_app.
  destruct (records_of_warning event) as [-> | (m & ->)]; simpl.
  - split; [exact IHw | lia].
  - split; [now constructor | lia].
Qed.

(** X5: the log of [on_mount] opens with the one debug record, which
    counts the events of the history; then come the warnings of the
    timestamps that could not be converted, at most one for each event;
    and an error record closes it exactly when the handler ran.  Nothing
    else is logged. *)
Theorem log_of_every_history (E : Env) (fi : FileInfo) :
  exists warnings closing,
    log (mounted fi) =
      mkLog DEBUG (Populating (length (event_history fi)) (VStr (fs_decode (path fi))))
      :: warnings ++ closing
    /\ Forall (fun r => level r = WARNING) warnings
    /\ (length warnings <= length (event_history fi))%nat
    /\ (closing = [] /\ notifications (mounted fi) = []
        \/ closing = [mkLog ERROR (ErrorPopulating (VStr (fs_decode (path fi))))]
           /\ notifications (mounted fi) = [error_notification]).
Proof.
  destruct (mounted_run fi)
    as [[Hempty ->] | [(built & Hsome & Hb & ->)
                      | (before & event & after & built & e & Hsplit & Hb & He & ->)]];
    simpl.
  - exists [], []. split; [reflexivity |]. split; [constructor |].
    split; [simpl; lia | now left].
  - exists (flat_map records_of (event_history fi)), [].
    rewrite app_nil_r. destruct (records_of_history (event_history fi)) as [Hw Hn].
    split; [reflexivity |]. split; [exact Hw |]. split; [exact Hn | now left].
  - exists (flat_map records_of (before ++ [event])),
      [mkLog ERROR (ErrorPopulating (VStr (fs_decode (path fi))))].
    destruct (records_of_history (before ++ [event])) as [Hw Hn].
    split; [| split; [exact Hw | split; [| now right]]].
    + rewrite flat_map_app. simpl. now rewrite app_nil_r.
    + rewrite Hsplit. rewrite !length_app in *. simpl in *. lia.
Qed.

(** ** More on the timestamp *)

(** The cells of an event whose timestamp text is made. *)
Lemma event_cells_after_timestamp `{Env} (event : pydict) (l : list log_record)
    (r : result pystr) :
  (forall s, timestamp (dict_get event (u "ts") (VInt 0)) s = (with_log s l, r)) ->
  records_of (VDict event) = l
  /\ (forall e, r = inl e -> cells_of (VDict event) = inl e)
  /\ (forall ts_str cells,
        r = ok ts_str -> cells_of (VDict event) = ok cells ->
        nth_error cells 0 = Some (Text_of ts_str [])).
Proof.
  intros Hrun.
  assert (Hrest : forall ts_str : pystr, silent
    (ty <- lift (get (VDict event) (u "type") (VStr (u "?"))) ;;
     success <- lift (get (VDict event) (u "success") (VBool true)) ;;
     details_value <- lift (get (VDict event) (u "details") (VDict [])) ;;
     filtered_details <- lift (filtered_details_of details_value success) ;;
     details_display <- lift (details_display_of (details_str_of filtered_details)) ;;
     ret [Text_of ts_str []; etype_text (upper (str ty)) success;
          result_text success; Text_of details_display []])%py).
  { intros ts_str.
    repeat (apply silent_bind; [apply silent_lift | intros ?]). apply silent_ret. }
  assert (Hcells : event_cells (VDict event) blank =
                   match r with
                   | inl e => (with_log blank l, inl e)
                   | inr ts_str =>
                       (ty <- lift (get (VDict event) (u "type") (VStr (u "?"))) ;;
                        success <- lift (get (VDict event) (u "success") (VBool true)) ;;
                        details_value <- lift (get (VDict event) (u "details") (VDict [])) ;;
                        filtered_details <- lift (filtered_details_of details_value success) ;;
                        details_display <-
                          lift (details_display_of (details_str_of filtered_details)) ;;
                        ret [Text_of ts_str []; etype_text (upper (str ty)) success;
                             result_text success; Text_of details_display []])%py
                         (with_log blank l)
                   end).
  { unfold event_cells. unfold mbind at 1. unfold lift at 1, get at 1.
    cbv beta iota delta [ok]. unfold mbind at 1. rewrite Hrun.
    destruct r; reflexivity. }
  unfold records_of, cells_of. rewrite Hcells.
  destruct r as [e | ts_str].
  - repeat split; [intros e' [= ->]; reflexivity | discriminate].
  - destruct (Hrest ts_str) as (r' & Hsilent). rewrite Hsilent. simpl.
    repeat split; [discriminate |].
    intros ts_str' cells [= <-] ->.
    specialize (Hsilent blank). revert Hsilent.
    unfold mbind, lift, get, ret. cbv beta iota delta [ok].
    destruct (filtered_details_of _ _); [discriminate |].
    destruct (details_display_of _); [discriminate |].
    intros [= <-]. reflexivity.
Qed.

(** X6: when [fromtimestamp] raises for a positive timestamp, the class
    of the exception decides.  A [TypeError], [ValueError] (a year beyond
    9999, say) or [OSError] is caught: the event logs one warning and, if
    its row is built, the timestamp cell shows the number with three
    decimals.  Any other class, such as the [OverflowError] of a time
    beyond the platform's [time_t], is not caught: the event raises it
    and logs nothing. *)
Theorem conversion_failure `{Env} (event : pydict) (ts_raw : value) (ts_str : pystr)
    (c : exn_class) :
  lookup (u "ts") event = Some ts_raw ->
  is_int_or_float ts_raw = true ->
  greater_than_zero ts_raw = true ->
  format_3f ts_raw = ok ts_str ->
  fromtimestamp (number_of ts_raw) = inl c ->
  (except_timestamp c = true <->
   c = TypeError \/ c = ValueError \/ c = OSError \/ c = UnicodeEncodeError)
  /\ (except_timestamp c = true ->
      records_of (VDict event) =
        [mkLog WARNING
           (CouldNotFormatTimestamp (str ts_raw)
              (exn_str (mkExn c (FromTimestamp (number_of ts_raw)))))]
      /\ forall cells,
           cells_of (VDict event) = ok cells ->
           nth_error cells 0 = Some (Text_of ts_str []))
  /\ (except_timestamp c = false ->
      records_of (VDict event) = []
      /\ cells_of (VDict event) = inl (mkExn c (FromTimestamp (number_of ts_raw)))).
Proof.
  intros Hts Hnum Hpos Hfmt Hraise.
  assert (Hget : dict_get event (u "ts") (VInt 0) = ts_raw)
    by (unfold dict_get; now rewrite Hts).
  split; [| split].
  - destruct c; simpl; intuition (try discriminate; auto).
  - intros Hcaught.
    destruct (event_cells_after_timestamp event
                [mkLog WARNING
                   (CouldNotFormatTimestamp (str ts_raw)
                      (exn_str (mkExn c (FromTimestamp (number_of ts_raw)))))]
                (ok ts_str)) as (Hlog & _ & Hcell).
    { intros s. rewrite Hget. now apply timestamp_recovers. }
    split; [exact Hlog |]. intros cells Hcells. now apply (Hcell ts_str).
  - intros Hcaught.
    destruct (event_cells_after_timestamp event []
                (inl (mkExn c (FromTimestamp (number_of ts_raw))))) as (Hlog & Hexn & _).
    { intros s. rewrite Hget, with_log_nil. now apply (timestamp_not_caught _ ts_str). }
    split; [exact Hlog | now apply Hexn].
Qed.

Lemma conversion_failure_witness :
  @records_of example_env far_future_event =
    [mkLog WARNING (CouldNotFormatTimestamp (u "10000000000000")
                      (u "year is out of range"))]
  /\ (forall cells,
        @cells_of example_env far_future_event = ok cells ->
        nth_error cells 0 = Some (mkText (u "10000000000000.000") [])).
Proof.
  exact (proj1 (proj2 (@conversion_failure example_env
           [(u "ts", VInt 10000000000000); (u "type", VStr (u "read"))]
           (VInt 10000000000000) (u "10000000000000.000") ValueError
           eq_refl eq_refl eq_refl eq_refl eq_refl)) eq_refl).
Defined.

(** ** More on the details *)

(** The first loop raises nothing but the exception of the call. *)
Lemma filter_details_raises `{Env} (its : pydict) :
  forall acc e, filter_details its acc = inl e -> e = mkExn TypeError FsdecodeArguments.
Proof.
  induction its as [| [k v] rest IH]; intros acc e; [discriminate |].
  cbn [filter_details].
  destruct (in_dec pystr_eq_dec k EXCLUDED_KEYS); [apply IH |].
  destruct (is_bytes v); [| apply IH].
  rewrite fsdecode_surrogateescape_raises. now intros [= <-].
Qed.

Lemma kept_no_bytes (details_dict : pydict) :
  existsb (fun kv => is_bytes (snd kv)) (kept details_dict) = false ->
  Forall (fun kv => is_bytes (snd kv) = false) (kept details_dict).
Proof.
  intros Hnone. apply Forall_forall. intros kv Hin.
  destruct (is_bytes (snd kv)) eqn:Hbytes; [| reflexivity].
  rewrite <- Hnone. symmetry. apply existsb_exists. now exists kv.
Qed.

Lemma path_keys_no_bytes (details_dict : pydict) :
  existsb (fun k => match lookup k details_dict with
                    | Some v => is_bytes v
                    | None => false
                    end) PATH_KEYS = false ->
  forall k v, In k PATH_KEYS -> lookup k details_dict = Some v -> is_bytes v = false.
Proof.
  intros Hnone k v Hin Hk.
  destruct (is_bytes v) eqn:Hbytes; [| reflexivity].
  rewrite <- Hnone. symmetry. apply existsb_exists. exists k.
  split; [exact Hin |]. now rewrite Hk.
Qed.

(** The three steps in closed form. *)
Lemma filtered_details_of_run `{Env} (details_dict : pydict) (success : value) :
  filtered_details_of (VDict details_dict) success =
    (if bytes_to_decode details_dict then raise TypeError FsdecodeArguments
     else if truthy (dict_get details_dict (u "error_name") VNone)
             && negb (truthy success)
     then match dict_get details_dict (u "error_name") VNone with
          | VStr name =>
              ok (store (u "ERROR") (Rich (Text_of name (u "red")))
                    (stored (kept details_dict) []))
          | other => raise AttributeError (TextInit other)
          end
     else ok (stored (kept details_dict) [])).
Proof.
  unfold filtered_details_of, bytes_to_decode. cbn [items bind ok].
  destruct (existsb (fun kv => is_bytes (snd kv)) (kept details_dict)) eqn:Hkept.
  - apply existsb_exists in Hkept as ([k v] & Hin & Hbytes).
    apply kept_In in Hin as [Hin Hkey]. simpl in Hbytes.
    rewrite (filter_details_bytes details_dict []); [reflexivity |].
    now exists k, v.
  - cbn [orb].
    rewrite (filter_details_total _ _ (kept_no_bytes _ Hkept)). cbn [bind ok].
    destruct (existsb _ PATH_KEYS) eqn:Hpaths.
    + apply existsb_exists in Hpaths as (k & Hin & Hbytes).
      destruct (lookup k details_dict) as [v |] eqn:Hk; [| discriminate].
      rewrite (path_details_bytes details_dict PATH_KEYS); [reflexivity |].
      now exists k, v.
    + rewrite (path_details_total _ _ _ (path_keys_no_bytes _ Hpaths)).
      cbn [bind ok]. unfold error_detail.
      destruct (truthy (dict_get details_dict (u "error_name") VNone)
                && negb (truthy success)); [| reflexivity].
      destruct (dict_get details_dict (u "error_name") VNone) as [| | | | | b |] eqn:Hname;
        try reflexivity.
      exfalso. unfold dict_get in Hname.
      destruct (lookup (u "error_name") details_dict) as [v |] eqn:Hlook;
        [| discriminate]. subst v.
      apply lookup_In in Hlook.
      assert (Hin : In (u "error_name", VBytes b) (kept details_dict)).
      { apply kept_In. split; [exact Hlook |].
        unfold EXCLUDED_KEYS. simpl. intuition discriminate. }
      pose proof (kept_no_bytes _ Hkept) as Hall.
      rewrite Forall_forall in Hall. specialize (Hall _ Hin). discriminate.
Qed.

(** X7: what the details of an event come to, in closed form.  A [bytes]
    value under a key that the first loop keeps, or under one of the four
    path keys, raises the [TypeError] of the two-argument call, wherever
    it stands; a [bytes] value under [syscall], [type], [success], [ts] or
    [error_msg] is skipped and does no harm.  Without such a value the
    items kept are stored, and the [ERROR] entry is put in when the error
    name is truthy and the event fails, which raises in turn when the name
    is not a text.  Details that are no mapping have no [items]. *)
Theorem details_outcome (E : Env) (details_dict : pydict) (success : value) :
  filtered_details_of (VDict details_dict) success =
    (if bytes_to_decode details_dict then raise TypeError FsdecodeArguments
     else if truthy (dict_get details_dict (u "error_name") VNone)
             && negb (truthy success)
     then match dict_get details_dict (u "error_name") VNone with
          | VStr name =>
              ok (store (u "ERROR") (Rich (Text_of name (u "red")))
                    (stored (kept details_dict) []))
          | other => raise AttributeError (TextInit other)
          end
     else ok (stored (kept details_dict) []))
  /\ forall other,
       (forall d, other <> VDict d) ->
       filtered_details_of other success =
         raise AttributeError (NoAttribute other (u "items")).
Proof.
  split; [apply filtered_details_of_run |].
  intros other Hother. destruct other as [| | | | | | d]; try reflexivity.
  exfalso. now apply (Hother d).
Qed.

Lemma store_fresh {V} (k : pystr) (v : V) (d : list (pystr * V)) :
  ~ In k (map fst d) -> store k v d = d ++ [(k, v)].
Proof.
  induction d as [| [k' v'] rest IH]; simpl; intros Hfresh; [reflexivity |].
  destruct (pystr_eq_dec k k') as [-> | Hne]; [tauto |].
  rewrite IH; tauto.
Qed.

Lemma store_present {V} (k : pystr) (v : V) (d : list (pystr * V)) :
  In k (map fst d) -> map fst (store k v d) = map fst d.
Proof.
  induction d as [| [k' v'] rest IH]; simpl; intros Hin; [destruct Hin |].
  destruct (pystr_eq_dec k k') as [-> | Hne]; [reflexivity |].
  simpl. rewrite IH; [reflexivity |]. destruct Hin; congruence.
Qed.

Lemma lookup_store {V} (k : pystr) (v : V) (d : list (pystr * V)) :
  lookup k (store k v d) = Some v.
Proof.
  induction d as [| [k' v'] rest IH]; simpl.
  - now destruct (pystr_eq_dec k k).
  - destruct (pystr_eq_dec k k') as [-> | Hne]; simpl.
    + now destruct (pystr_eq_dec k' k').
    + now destruct (pystr_eq_dec k k').
Qed.

Lemma store_keys {V} (k : pystr) (v : V) (d : list (pystr * V)) (k' : pystr) :
  In k' (map fst (store k v d)) <-> k' = k \/ In k' (map fst d).
Proof.
  induction d as [| [k1 v1] rest IH]; simpl.
  - intuition.
  - destruct (pystr_eq_dec k k1) as [-> | Hne]; simpl; [intuition |].
    rewrite IH. intuition.
Qed.

(** In a [dict] the value stored under a key is the only one under it. *)
Lemma store_replaces {V} (k : pystr) (v : V) (d : list (pystr * V)) (x : V) :
  NoDup (map fst d) -> In (k, x) (store k v d) -> x = v.
Proof.
  induction d as [| [k1 v1] rest IH]; simpl; intros Hnd Hin.
  - destruct Hin as [[= ->] | []]. reflexivity.
  - inversion Hnd as [| ? ? Hfresh Hrest]; subst.
    destruct (pystr_eq_dec k k1) as [-> | Hne].
    + destruct Hin as [[= ->] | Hin]; [reflexivity |].
      exfalso. apply Hfresh. now apply (in_map fst) in Hin.
    + destruct Hin as [[= ? ?] | Hin]; [congruence | auto].
Qed.

(** The items of a [dict] are stored in their order. *)
Lemma stored_in_order (its : pydict) :
  forall acc,
    NoDup (map fst acc ++ map fst its) ->
    stored its acc = acc ++ map plain_entry its.
Proof.
  induction its as [| [k v] rest IH]; intros acc Hnd; simpl.
  - now rewrite app_nil_r.
  - assert (Hfresh : ~ In k (map fst acc)).
    { apply NoDup_remove_2 in Hnd. intros Hin. apply Hnd.
      apply in_or_app. now left. }
    rewrite (store_fresh k (Plain v) acc Hfresh).
    rewrite IH.
    + rewrite <- app_assoc. reflexivity.
    + rewrite map_app. simpl. rewrite <- app_assoc. exact Hnd.
Qed.

Lemma stored_keys (its : pydict) :
  forall acc k,
    In k (map fst (stored its acc)) <-> In k (map fst its) \/ In k (map fst acc).
Proof.
  induction its as [| [k0 v0] rest IH]; intros acc k; simpl; [tauto |].
  rewrite IH, store_keys. intuition.
Qed.

Lemma kept_keys (its : pydict) (k : pystr) :
  In k (map fst (kept its)) <-> In k (map fst its) /\ ~ In k EXCLUDED_KEYS.
Proof.
  split.
  - intros Hin. apply in_map_iff in Hin as ([k' v] & <- & Hin).
    apply kept_In in Hin as [Hin Hkey]. split; [| exact Hkey].
    now apply (in_map fst) in Hin.
  - intros [Hin Hkey]. apply in_map_iff in Hin as ([k' v] & <- & Hin).
    apply in_map_iff. exists (k', v). split; [reflexivity |]. now apply kept_In.
Qed.

Lemma details_str_of_plain `{Env} (its : pydict) :
  details_str_of (map plain_entry its) =
  join (u ", ") (map (fun kv => fst kv ++ u "=" ++ repr (snd kv)) its).
Proof. unfold details_str_of. now rewrite map_map. Qed.

Lemma kept_stored_in_order (details_dict : pydict) :
  NoDup (map fst details_dict) ->
  stored (kept details_dict) [] = map plain_entry (kept details_dict).
Proof.
  intros Hnd. apply (stored_in_order (kept details_dict) []).
  simpl. now apply kept_NoDup.
Qed.

(** X8: the details text lists the entries of the event's mapping in the
    order of the mapping, the bookkeeping keys left out, each as
    [key=repr(value)] and joined by a comma and a space; when the [ERROR]
    entry is put in and the mapping has no [ERROR] of its own, it comes
    last. *)
Theorem details_in_mapping_order `{Env} (details_dict : pydict) (success : value) :
  NoDup (map fst details_dict) ->
  bytes_to_decode details_dict = false ->
  (truthy (dict_get details_dict (u "error_name") VNone) && negb (truthy success) = false ->
   filtered_details_of (VDict details_dict) success =
     ok (map plain_entry (kept details_dict))
   /\ details_str_of (map plain_entry (kept details_dict)) =
      join (u ", ")
        (map (fun kv => fst kv ++ u "=" ++ repr (snd kv)) (kept details_dict)))
  /\ (forall name,
        dict_get details_dict (u "error_name") VNone = VStr name ->
        name <> [] ->
        truthy success = false ->
        ~ In (u "ERROR") (map fst details_dict) ->
        filtered_details_of (VDict details_dict) success =
          ok (map plain_entry (kept details_dict)
              ++ [(u "ERROR", Rich (Text_of name (u "red")))])
        /\ details_str_of (map plain_entry (kept details_dict)
                           ++ [(u "ERROR", Rich (Text_of name (u "red")))]) =
           join (u ", ")
             (map (fun kv => fst kv ++ u "=" ++ repr (snd kv)) (kept details_dict)
              ++ [u "ERROR=" ++ repr_str (strip_control_codes name)])).
Proof.
  intros Hnd Hbytes. split.
  - intros Hcond. rewrite filtered_details_of_run, Hbytes, Hcond.
    rewrite (kept_stored_in_order _ Hnd). split; [reflexivity |].
    apply details_str_of_plain.
  - intros name Hname Hnonempty Hfail Hown.
    rewrite filtered_details_of_run, Hbytes, Hname, Hfail.
    assert (Htruthy : truthy (VStr name) = true)
      by (destruct name; [congruence | reflexivity]).
    rewrite Htruthy. cbn [andb negb].
    rewrite (kept_stored_in_order _ Hnd).
    rewrite store_fresh.
    + split; [reflexivity |].
      unfold details_str_of. rewrite map_app, map_map. reflexivity.
    + rewrite map_map. cbn [plain_entry fst].
      intros Hin. apply Hown. now apply kept_keys in Hin as [Hin _].
Qed.

Lemma details_in_mapping_order_witness :
  let details_dict :=
    [(u "fd", VInt 4); (u "ts", VInt 7); (u "error_name", VStr (u "EBADF"));
     (u "syscall", VBytes [x72]); (u "count", VInt 0)] in
  NoDup (map fst details_dict)
  /\ bytes_to_decode details_dict = false
  /\ @details_str_of example_env
       (map plain_entry (kept details_dict)
        ++ [(u "ERROR", Rich (Text_of (u "EBADF") (u "red")))]) =
     u "fd=4, error_name='EBADF', count=0, ERROR='EBADF'".
Proof.
  assert (Hnd : NoDup (map fst [(u "fd", VInt 4); (u "ts", VInt 7);
                                (u "error_name", VStr (u "EBADF"));
                                (u "syscall", VBytes [x72]); (u "count", VInt 0)])).
  { repeat constructor; simpl; intuition discriminate. }
  split; [exact Hnd |]. split; [reflexivity |].
  destruct (proj2 (@details_in_mapping_order example_env
              [(u "fd", VInt 4); (u "ts", VInt 7); (u "error_name", VStr (u "EBADF"));
               (u "syscall", VBytes [x72]); (u "count", VInt 0)] (VBool false)
              Hnd eq_refl) (u "EBADF") eq_refl) as [_ Hstr].
  - discriminate.
  - reflexivity.
  - simpl. intuition discriminate.
  - rewrite Hstr. reflexivity.
Defined.

(** X9: an [ERROR] detail of the event's own does not survive a failure
    with an error name: line 165 assigns to the same key, so the entry
    keeps its place in the text and shows the error name, the value the
    event gave is not shown anywhere, and no entry is added. *)
Theorem own_error_detail_replaced `{Env} (details_dict : pydict) (success own : value)
    (name : pystr) :
  NoDup (map fst details_dict) ->
  bytes_to_decode details_dict = false ->
  In (u "ERROR", own) details_dict ->
  dict_get details_dict (u "error_name") VNone = VStr name ->
  name <> [] ->
  truthy success = false ->
  exists fd,
    filtered_details_of (VDict details_dict) success = ok fd
    /\ map fst fd = map fst (kept details_dict)
    /\ lookup (u "ERROR") fd = Some (Rich (Text_of name (u "red")))
    /\ forall shown, In (u "ERROR", shown) fd -> shown = Rich (Text_of name (u "red")).
Proof.
  intros Hnd Hbytes Hown Hname Hnonempty Hfail.
  assert (Htruthy : truthy (VStr name) = true)
    by (destruct name; [congruence | reflexivity]).
  eexists. rewrite filtered_details_of_run, Hbytes, Hname, Hfail, Htruthy.
  cbn [andb negb]. split; [reflexivity |].
  rewrite (kept_stored_in_order _ Hnd).
  assert (Hkeys : map fst (map plain_entry (kept details_dict)) =
                  map fst (kept details_dict))
    by (rewrite map_map; reflexivity).
  split; [| split].
  - rewrite store_present; [exact Hkeys |].
    rewrite Hkeys. apply kept_keys. split.
    + now apply (in_map fst) in Hown.
    + unfold EXCLUDED_KEYS. simpl. intuition discriminate.
  - apply lookup_store.
  - intros shown Hin. apply (store_replaces _ _ _ _ ) in Hin; [exact Hin |].
    rewrite Hkeys. now apply kept_NoDup.
Qed.

Lemma own_error_detail_replaced_witness :
  let details_dict :=
    [(u "ERROR", VInt 13); (u "error_name", VStr (u "EACCES")); (u "fd", VInt 4)] in
  NoDup (map fst details_dict)
  /\ exists fd,
       @filtered_details_of example_env (VDict details_dict) (VBool false) = ok fd
       /\ map fst fd = [u "ERROR"; u "error_name"; u "fd"]
       /\ lookup (u "ERROR") fd = Some (Rich (mkText (u "EACCES") (u "red"))).
Proof.
  assert (Hnd : NoDup (map fst [(u "ERROR", VInt 13); (u "error_name", VStr (u "EACCES"));
                                (u "fd", VInt 4)])).
  { repeat constructor; simpl; intuition discriminate. }
  split; [exact Hnd |].
  destruct (@own_error_detail_replaced example_env
              [(u "ERROR", VInt 13); (u "error_name", VStr (u "EACCES")); (u "fd", VInt 4)]
              (VBool false) (VInt 13) (u "EACCES") Hnd eq_refl (or_introl eq_refl) eq_refl)
    as (fd & Hfd & Hkeys & Hlook & _); [discriminate | reflexivity |].
  exists fd. split; [exact Hfd |]. split; [exact Hkeys | exact Hlook].
Defined.

(** X10: the keys of the details shown are exactly the keys of the event's
    details that are not bookkeeping keys, and [ERROR] when the error name
    is truthy and the event fails: no other key is made up and none is
    dropped. *)
Theorem keys_of_the_details `{Env} (details_dict : pydict) (success : value)
    (fd : details) :
  filtered_details_of (VDict details_dict) success = ok fd ->
  forall k,
    In k (map fst fd) <->
    (In k (map fst details_dict) /\ ~ In k EXCLUDED_KEYS)
    \/ (k = u "ERROR"
        /\ truthy (dict_get details_dict (u "error_name") VNone) = true
        /\ truthy success = false).
Proof.
  intros Hrun k.
  destruct (filtered_details_of_ok _ _ _ Hrun) as (_ & _ & Herr).
  assert (Hbase : In k (map fst (stored (kept details_dict) [])) <->
                  In k (map fst details_dict) /\ ~ In k EXCLUDED_KEYS).
  { rewrite stored_keys, kept_keys. simpl. tauto. }
  destruct (error_detail_ok _ _ _ _ Herr) as [[Hcond ->] | [Hcond (name & _ & ->)]].
  - rewrite Hbase. split; [tauto |].
    intros [Hkept | (_ & Hn & Hs)]; [exact Hkept |].
    rewrite Hn, Hs in Hcond. discriminate.
  - apply andb_prop in Hcond as [Hn Hs]. apply negb_true_iff in Hs.
    rewrite store_keys, Hbase. tauto.
Qed.

Lemma keys_of_the_details_witness :
  @filtered_details_of example_env
    (VDict [(u "fd", VInt 4); (u "type", VStr (u "read")); (u "target_path", VStr (u "/a"))])
    (VBool true) = ok [(u "fd", Plain (VInt 4))]
  /\ (In (u "type") (map fst [(u "fd", Plain (VInt 4))]) <->
      (In (u "type") (map fst [(u "fd", VInt 4); (u "type", VStr (u "read"));
                               (u "target_path", VStr (u "/a"))])
       /\ ~ In (u "type") EXCLUDED_KEYS)
      \/ (u "type" = u "ERROR"
          /\ truthy (dict_get [(u "fd", VInt 4); (u "type", VStr (u "read"));
                               (u "target_path", VStr (u "/a"))]
                       (u "error_name") VNone) = true
          /\ truthy (VBool true) = false)).
Proof.
  split; [reflexivity |].
  exact (@keys_of_the_details example_env
           [(u "fd", VInt 4); (u "type", VStr (u "read")); (u "target_path", VStr (u "/a"))]
           (VBool true) [(u "fd", Plain (VInt 4))] eq_refl (u "type")).
Defined.

(** X11: the defaults of lines 95, 107, 108 and 126.  An event without
    [ts] and without [details] has the timestamp text [0.000] and an empty
    details text, and logs nothing; without [type] and [success] as well,
    its event column is the emoji of [?] before [?] and its result is
    [OK]. *)
Theorem defaults_for_missing_keys `{Env} (event : pydict) :
  lookup (u "ts") event = None ->
  lookup (u "details") event = None ->
  cells_of (VDict event) =
    ok [Text_of (u "0.000") [];
        etype_text (upper (str (dict_get event (u "type") (VStr (u "?")))))
          (dict_get event (u "success") (VBool true));
        result_text (dict_get event (u "success") (VBool true));
        Text_of (short_path [] 100) []]
  /\ records_of (VDict event) = []
  /\ (lookup (u "type") event = None ->
      lookup (u "success") event = None ->
      cells_of (VDict event) =
        ok [Text_of (u "0.000") [];
            Text_of (emoji_for (u "?") ++ u " ?") [];
            Text_of (u "OK") (u "green");
            Text_of (short_path [] 100) []]).
Proof.
  intros Hts Hdetails.
  assert (Hrun : forall s,
            event_cells (VDict event) s =
            (s, ok [Text_of (u "0.000") [];
                    etype_text (upper (str (dict_get event (u "type") (VStr (u "?")))))
                      (dict_get event (u "success") (VBool true));
                    result_text (dict_get event (u "success") (VBool true));
                    Text_of (short_path [] 100) []])).
  { intros s. unfold event_cells, get.
    assert (Hts0 : dict_get event (u "ts") (VInt 0) = VInt 0)
      by (unfold dict_get; now rewrite Hts).
    assert (Hd0 : dict_get event (u "details") (VDict []) = VDict [])
      by (unfold dict_get; now rewrite Hdetails).
    rewrite Hts0, Hd0.
    assert (Hclock : timestamp (VInt 0) s = (s, ok (u "0.000"))).
    { unfold timestamp, mbind, lift. rewrite (format_3f_int 0) by (vm_compute; reflexivity).
      reflexivity. }
    unfold mbind at 1. unfold lift at 1. cbv beta iota delta [ok].
    unfold mbind at 1. rewrite Hclock.
    destruct (dict_get event (u "success") (VBool true)) as [| [|] | z | f | t | b | d];
      reflexivity. }
  split; [| split].
  - unfold cells_of. now rewrite Hrun.
  - unfold records_of. now rewrite Hrun.
  - intros Hty Hsucc. unfold cells_of. rewrite Hrun.
    unfold dict_get. rewrite Hty, Hsucc. reflexivity.
Qed.

Lemma defaults_for_missing_keys_witness :
  @cells_of example_env (VDict [(u "pid", VInt 7)]) =
    ok [mkText (u "0.000") []; mkText (@emoji_for example_env (u "?") ++ u " ?") [];
        mkText (u "OK") (u "green"); mkText [] []]
  /\ @records_of example_env (VDict [(u "pid", VInt 7)]) = [].
Proof.
  destruct (@defaults_for_missing_keys example_env [(u "pid", VInt 7)] eq_refl eq_refl)
    as (_ & Hlog & Hcells).
  split; [| exact Hlog].
  rewrite (Hcells eq_refl eq_refl). reflexivity.
Defined.

(** ** The header *)

(** X12: the style of the status word in the header.  The tests of lines
    53-58 are tried in order and compare the status as it is stored, so
    [error] wins over an open file, [deleted] shows only for a file that
    is not open, and any other status of a closed file has no style; the
    word itself is the status in upper case, after the shortened path in
    bold. *)
Theorem header_style_rules `{Env} (fi : FileInfo) :
  exists status_style,
    _create_header_text fi =
      [Text_of (u "Details for: ") []; Text_of (short_path (path fi) 100) (u "bold");
       Text_of (u " | Status: ") []; Text_of (upper (status fi)) status_style]
    /\ (status_style = u "bold red" <-> status fi = u "error")
    /\ (status_style = u "bold green" <->
        status fi <> u "error" /\ is_open fi = true)
    /\ (status_style = u "strike" <->
        status fi <> u "error" /\ is_open fi = false /\ status fi = u "deleted")
    /\ (status_style = [] <->
        status fi <> u "error" /\ is_open fi = false /\ status fi <> u "deleted").
Proof.
  unfold _create_header_text, pystr_eqb.
  destruct (pystr_eq_dec (status fi) (u "error")) as [Herr | Herr].
  - eexists. split; [reflexivity |].
    repeat split; try tauto; try discriminate; intros; tauto.
  - destruct (is_open fi) eqn:Hopen.
    + eexists. split; [reflexivity |].
      repeat split; try tauto; try discriminate; intros; intuition discriminate.
    + destruct (pystr_eq_dec (status fi) (u "deleted")) as [Hdel | Hdel].
      * eexists. split; [reflexivity |].
        repeat split; try tauto; try discriminate; intros; intuition discriminate.
      * eexists. split; [reflexivity |].
        repeat split; try tauto; try discriminate; intros; intuition discriminate.
Qed.

(** ** Control characters in the details text *)

Ltac to_props :=
  repeat match goal with
  | H : (_ || _)%bool = true |- _ => apply orb_true_iff in H; destruct H
  | H : (_ || _)%bool = false |- _ => apply orb_false_iff in H; destruct H
  | H : (_ =? _)%N = true |- _ => apply N.eqb_eq in H
  | H : (_ =? _)%N = false |- _ => apply N.eqb_neq in H
  | H : (_ <? _)%N = true |- _ => apply N.ltb_lt in H
  | H : (_ <? _)%N = false |- _ => apply N.ltb_ge in H
  | H : (_ <=? _)%N = true |- _ => apply N.leb_le in H
  | H : (_ <=? _)%N = false |- _ => apply N.leb_gt in H
  end.

Lemma control_free_app (s t : pystr) :
  control_free s -> control_free t -> control_free (s ++ t).
Proof. intros Hs Ht. apply Forall_app. now split. Qed.

Lemma control_free_literal (s : pystr) :
  forallb (fun c => (32 <=? c)%N && negb (c =? 127)%N) s = true -> control_free s.
Proof.
  intros Hall. apply Forall_forall. intros c Hc.
  rewrite forallb_forall in Hall. specialize (Hall c Hc).
  apply andb_prop in Hall as [Hlow Hdel].
  apply N.leb_le in Hlow. apply negb_true_iff, N.eqb_neq in Hdel. now split.
Qed.

Lemma hexpad_control_free (w : nat) :
  forall n, control_free (hexpad w n).
Proof.
  induction w as [| w IH]; intros n; cbn [hexpad]; [constructor |].
  apply control_free_app; [apply IH |].
  constructor; [| constructor].
  assert (Hmod : (n mod 16 < 16)%N) by (apply N.mod_lt; discriminate).
  unfold hexdigit. generalize dependent (n mod 16)%N. intros d Hd.
  destruct (d <? 10)%N eqn:Hlt; to_props; lia.
Qed.

Lemma repr_quote_cases (s : pystr) : repr_quote s = 34%N \/ repr_quote s = 39%N.
Proof. unfold repr_quote. destruct (_ && _); auto. Qed.

Lemma escape_char_control_free `{Env} (quote c : N) :
  quote = 34%N \/ quote = 39%N -> control_free (escape_char quote c).
Proof.
  intros Hq. unfold escape_char.
  repeat match goal with
  | |- context [if ?b then _ else _] => destruct b eqn:?
  end; to_props;
  repeat first
    [ apply hexpad_control_free
    | apply control_free_app
    | apply control_free_literal; reflexivity
    | constructor ];
  lia.
Qed.

Lemma escape_byte_control_free (quote c : N) :
  quote = 34%N \/ quote = 39%N -> control_free (escape_byte quote c).
Proof.
  intros Hq. unfold escape_byte.
  repeat match goal with
  | |- context [if ?b then _ else _] => destruct b eqn:?
  end; to_props;
  repeat first
    [ apply hexpad_control_free
    | apply control_free_app
    | apply control_free_literal; reflexivity
    | constructor ];
  lia.
Qed.

Lemma flat_map_control_free (f : N -> pystr) (s : pystr) :
  (forall c, control_free (f c)) -> control_free (flat_map f s).
Proof.
  intros Hf. induction s as [| c s IH]; simpl; [constructor |].
  apply control_free_app; auto.
Qed.

Lemma repr_str_control_free `{Env} (s : pystr) : control_free (repr_str s).
Proof.
  unfold repr_str. pose proof (repr_quote_cases s) as Hq.
  apply control_free_app; [constructor; [lia | constructor] |].
  apply control_free_app; [| constructor; [lia | constructor]].
  apply flat_map_control_free. intros c. now apply escape_char_control_free.
Qed.

Lemma repr_bytes_control_free `{Env} (b : pybytes) : control_free (repr_bytes b).
Proof.
  unfold repr_bytes. pose proof (repr_quote_cases (map Byte.to_N b)) as Hq.
  apply control_free_app; [apply control_free_literal; reflexivity |].
  apply control_free_app; [constructor; [lia | constructor] |].
  apply control_free_app; [| constructor; [lia | constructor]].
  apply flat_map_control_free. intros c. now apply escape_byte_control_free.
Qed.

Lemma string_of_uint_control_free (d : Decimal.uint) :
  control_free (u (NilEmpty.string_of_uint d)).
Proof.
  induction d; simpl; try (constructor; [cbn; lia | assumption]).
  constructor.
Qed.

Lemma decimal_control_free (z : Z) : control_free (decimal z).
Proof.
  unfold decimal.
  assert (Huint : forall d, control_free (u (NilZero.string_of_uint d))).
  { intros d. destruct d; try apply string_of_uint_control_free.
    apply control_free_literal. reflexivity. }
  destruct (Z.to_int z) as [d | d]; simpl.
  - apply Huint.
  - constructor; [cbn; lia | apply Huint].
Qed.

Lemma join_control_free (sep : pystr) (parts : list pystr) :
  control_free sep -> Forall control_free parts -> control_free (join sep parts).
Proof.
  intros Hsep Hparts. induction Hparts as [| p rest Hp Hrest IH]; [constructor |].
  destruct rest as [| q rest]; [exact Hp |].
  change (control_free (p ++ sep ++ join sep (q :: rest))).
  repeat apply control_free_app; auto.
Qed.

Section value_induction.
Variable P : value -> Prop.
Hypothesis HNone : P VNone.
Hypothesis HBool : forall b, P (VBool b).
Hypothesis HInt : forall z, P (VInt z).
Hypothesis HFloat : forall f, P (VFloat f).
Hypothesis HStr : forall s, P (VStr s).
Hypothesis HBytes : forall b, P (VBytes b).
Hypothesis HDict : forall d, Forall (fun kv => P (snd kv)) d -> P (VDict d).

Fixpoint value_nested_ind (v : value) : P v :=
  match v with
  | VNone => HNone
  | VBool b => HBool b
  | VInt z => HInt z
  | VFloat f => HFloat f
  | VStr s => HStr s
  | VBytes b => HBytes b
  | VDict d =>
      HDict d
        ((fix each (d : list (pystr * value)) : Forall (fun kv => P (snd kv)) d :=
            match d with
            | [] => Forall_nil _
            | kv :: rest => Forall_cons kv (value_nested_ind (snd kv)) (each rest)
            end) d)
  end.

End value_induction.

Lemma repr_control_free `{Env} (v : value) :
  float_free v = true -> control_free (repr v).
Proof.
  induction v as [| b | z | f | s | b | d IH] using value_nested_ind; intros Hff.
  - apply control_free_literal. reflexivity.
  - destruct b; apply control_free_literal; reflexivity.
  - apply decimal_control_free.
  - discriminate.
  - apply repr_str_control_free.
  - apply repr_bytes_control_free.
  - cbn [repr]. cbn [float_free] in Hff. rewrite forallb_forall in Hff.
    apply control_free_app; [apply control_free_literal; reflexivity |].
    apply control_free_app; [| apply control_free_literal; reflexivity].
    apply join_control_free; [apply control_free_literal; reflexivity |].
    apply Forall_map. rewrite Forall_forall in *. intros kv Hin.
    apply control_free_app; [apply repr_str_control_free |].
    apply control_free_app; [apply control_free_literal; reflexivity |].
    apply (IH kv Hin). now apply Hff.
Qed.

Lemma details_part_control_free `{Env} (kv : pystr * detail) :
  plain_keyed kv -> control_free (details_part kv).
Proof.
  destruct kv as [k [v | t]]; intros [Hk Hv]; unfold details_part; cbn [fst snd] in *.
  - apply control_free_app; [exact Hk |].
    apply control_free_app; [apply control_free_literal; reflexivity |].
    now apply repr_control_free.
  - apply control_free_app; [exact Hk |].
    apply control_free_app; [apply control_free_literal; reflexivity |].
    apply repr_str_control_free.
Qed.

Lemma control_free_not_stripped (s : pystr) :
  control_free s -> strip_control_codes s = s.
Proof.
  intros Hs. apply strip_control_codes_id.
  apply Forall_impl with (2 := Hs). intros c [Hlow _]. lia.
Qed.

(** X13: no control character of a detail reaches the details text through
    a value.  When the keys of the event's details have no ASCII control
    character and the values hold no float, the joined text [details_str]
    has none either (a newline, an escape or a bell inside a text or bytes
    value is written as its escape sequence by [repr]), so the [Text] of
    the cell has nothing to strip from it. *)
Theorem details_text_control_free `{Env} (details_dict : pydict) (success : value)
    (fd : details) :
  Forall (fun kv => control_free (fst kv) /\ float_free (snd kv) = true) details_dict ->
  filtered_details_of (VDict details_dict) success = ok fd ->
  control_free (details_str_of fd)
  /\ strip_control_codes (details_str_of fd) = details_str_of fd.
Proof.
  intros Hdict Hrun.
  assert (Hbase : Forall plain_keyed (stored (kept details_dict) [])).
  { apply Forall_forall. intros [k x] Hin.
    destruct (stored_In_inv _ _ _ _ Hin) as [(v & Hv & ->) | []].
    apply kept_In in Hv as [Hv _].
    rewrite Forall_forall in Hdict. exact (Hdict (k, v) Hv). }
  assert (Hfd : Forall plain_keyed fd).
  { rewrite filtered_details_of_run in Hrun.
    destruct (bytes_to_decode details_dict); [discriminate |].
    destruct (truthy _ && negb _).
    - destruct (dict_get details_dict (u "error_name") VNone); try discriminate.
      injection Hrun as <-. apply Forall_forall. intros [k x] Hin.
      destruct (store_In_inv _ _ _ _ _ Hin) as [[-> ->] | Hold].
      + split; [apply control_free_literal; reflexivity | exact I].
      + rewrite Forall_forall in Hbase. exact (Hbase _ Hold).
    - injection Hrun as <-. exact Hbase. }
  assert (Hfree : control_free (details_str_of fd)).
  { unfold details_str_of. apply join_control_free.
    - apply control_free_literal. reflexivity.
    - apply Forall_map. apply Forall_impl with (2 := Hfd).
      intros kv. apply details_part_control_free. }
  split; [exact Hfree | now apply control_free_not_stripped].
Qed.

Lemma details_text_control_free_witness :
  let details_dict :=
    [(u "msg", VStr [27; 91; 109; 10]%N); (u "fd", VInt (-3)); (u "flags", VNone)] in
  exists fd,
    @filtered_details_of example_env (VDict details_dict) (VBool true) = ok fd
    /\ @details_str_of example_env fd = u "msg='\x1b[m\n', fd=-3, flags=None"
    /\ control_free (@details_str_of example_env fd).
Proof.
  eexists. split; [reflexivity |]. split; [reflexivity |].
  apply (@details_text_control_free example_env
           [(u "msg", VStr [27; 91; 109; 10]%N); (u "fd", VInt (-3)); (u "flags", VNone)]
           (VBool true)).
  - repeat (apply Forall_cons;
            [split; [apply control_free_literal; reflexivity | reflexivity] |]).
    apply Forall_nil.
  - reflexivity.
Defined.

(** ** What a row depends on *)

Lemma filtered_details_of_truth `{Env} (details_value s1 s2 : value) :
  truthy s1 = truthy s2 ->
  filtered_details_of details_value s1 = filtered_details_of details_value s2.
Proof.
  intros Htruth. unfold filtered_details_of.
  destruct (items details_value) as [e | d]; [reflexivity |]. cbn [bind].
  destruct (filter_details d []) as [e | fd]; [reflexivity |]. cbn [bind].
  destruct (path_details d PATH_KEYS fd) as [e | fd']; [reflexivity |]. cbn [bind].
  unfold error_detail. now rewrite Htruth.
Qed.

(** X14: a row is made from four things only.  Two events that agree on
    [ts], [type] and [details] and whose [success] values have the same
    truth value (zero, [None] and an empty text count as a failure like
    [False]; a missing one counts as [True]) give the same cells, or the
    same exception, and the same log records, whatever else they hold. *)
Theorem row_depends_on_four_keys `{Env} (event1 event2 : pydict) :
  lookup (u "ts") event1 = lookup (u "ts") event2 ->
  lookup (u "type") event1 = lookup (u "type") event2 ->
  lookup (u "details") event1 = lookup (u "details") event2 ->
  truthy (dict_get event1 (u "success") (VBool true)) =
  truthy (dict_get event2 (u "success") (VBool true)) ->
  cells_of (VDict event1) = cells_of (VDict event2)
  /\ records_of (VDict event1) = records_of (VDict event2).
Proof.
  intros Hts Hty Hdetails Htruth.
  assert (Hrun : event_cells (VDict event1) blank = event_cells (VDict event2) blank).
  { unfold event_cells, get.
    assert (Hts' : dict_get event1 (u "ts") (VInt 0) = dict_get event2 (u "ts") (VInt 0))
      by (unfold dict_get; now rewrite Hts).
    assert (Hty' : dict_get event1 (u "type") (VStr (u "?")) =
                   dict_get event2 (u "type") (VStr (u "?")))
      by (unfold dict_get; now rewrite Hty).
    assert (Hdetails' : dict_get event1 (u "details") (VDict []) =
                        dict_get event2 (u "details") (VDict []))
      by (unfold dict_get; now rewrite Hdetails).
    rewrite Hts', Hty', Hdetails'.
    generalize dependent (dict_get event1 (u "success") (VBool true)).
    generalize dependent (dict_get event2 (u "success") (VBool true)).
    intros s2 s1 Htruth.
    unfold mbind, lift. cbv beta iota delta [ok].
    destruct (timestamp _ blank) as [s' [e | ts_str]]; [reflexivity |].
    rewrite (filtered_details_of_truth _ s1 s2 Htruth).
    unfold etype_text, result_text. rewrite Htruth. reflexivity. }
  unfold cells_of, records_of. now rewrite Hrun.
Qed.

Lemma row_depends_on_four_keys_witness :
  @cells_of example_env
    (VDict [(u "ts", VInt 5); (u "type", VStr (u "open")); (u "success", VInt 0);
            (u "pid", VInt 812)]) =
  @cells_of example_env
    (VDict [(u "success", VNone); (u "type", VStr (u "open")); (u "ts", VInt 5)]).
Proof.
  apply (@row_depends_on_four_keys example_env
           [(u "ts", VInt 5); (u "type", VStr (u "open")); (u "success", VInt 0);
            (u "pid", VInt 812)]
           [(u "success", VNone); (u "type", VStr (u "open")); (u "ts", VInt 5)]);
    reflexivity.
Defined.
